(** * The M3U8 importer of step0_parse_and_copy_m3u8_Version2.py

    A shallow embedding of [M3U8Importer]: the playlist parser, the
    metadata reader, the path planner with its collision loop, the copy
    loop, [run] and [main], over an explicit file system and a monad of
    mutable state and exceptions.

    Conventions.
    - A Python [str] is the list of its code points ([N]); a path is the
      list of its components from the root, and [p / name] appends one.
    - The file system maps a path to a regular file with its bytes or to a
      directory.  An existing entry is read without error, and
      [shutil.copy2] either fails and leaves the file system as it is or
      writes the whole file.  [self.log] and the report of [save_results]
      are not represented, and of [print_summary] only the message that
      closes the summary is: they change no counter, no record and no file
      of the library tree.
    - What the script takes from libraries is a field of [World]:
      [hashlib.md5], mutagen, [int()], the resolution of a playlist line
      ([urlparse], [unquote], [Path.resolve]), the decoding of the playlist
      into lines, and the I/O failures of [shutil.copy2].
    - [suffix] and [stem] are those of pathlib in CPython 3.12. *)

From Stdlib Require Import ZArith Lia Strings.Byte String Ascii List.
From Stdlib Require DecimalNat.
From stdpp Require Import gmap list fin_maps.

Open Scope N_scope.

(** ** Python strings *)

Abbreviation str := (list N).
Abbreviation path := (list (list N)).

(** An ASCII literal as a Python string. *)
Definition u (s : string) : str := map N_of_ascii (list_ascii_of_string s).

Definition char_in (c : N) (chars : list N) : bool := existsb (N.eqb c) chars.

(** [s.lstrip(chars)], [s.rstrip(chars)], [s.strip(chars)]. *)
Fixpoint lstrip (chars : list N) (s : str) : str :=
  match s with
  | [] => []
  | c :: s' => if char_in c chars then lstrip chars s' else s
  end.

Definition rstrip (chars : list N) (s : str) : str := rev (lstrip chars (rev s)).

Definition strip (chars : list N) (s : str) : str := rstrip chars (lstrip chars s).

(** [s.replace(old, new)] for a one-character [old]. *)
Definition replace (old : N) (new : str) (s : str) : str :=
  flat_map (fun c => if N.eqb c old then new else [c]) s.

(** The code points of [str.isspace], which [s.strip()] removes. *)
Definition py_isspace (c : N) : bool :=
  ((9 <=? c) && (c <=? 13)) || ((28 <=? c) && (c <=? 32))
  || (c =? 0x85) || (c =? 0xA0) || (c =? 0x1680)
  || ((0x2000 <=? c) && (c <=? 0x200A))
  || (c =? 0x2028) || (c =? 0x2029) || (c =? 0x202F) || (c =? 0x205F)
  || (c =? 0x3000).

Fixpoint lstrip_space (s : str) : str :=
  match s with
  | [] => []
  | c :: s' => if py_isspace c then lstrip_space s' else s
  end.

(** [s.strip()] *)
Definition py_strip (s : str) : str := rev (lstrip_space (rev (lstrip_space s))).

(** [s.startswith('#')] *)
Definition startswith_hash (s : str) : bool :=
  match s with
  | c :: _ => c =? 35
  | [] => false
  end.

(** Decimal digits, most significant first. *)
Fixpoint digits_of_uint (d : Decimal.uint) : str :=
  match d with
  | Decimal.Nil => []
  | Decimal.D0 d => 48 :: digits_of_uint d
  | Decimal.D1 d => 49 :: digits_of_uint d
  | Decimal.D2 d => 50 :: digits_of_uint d
  | Decimal.D3 d => 51 :: digits_of_uint d
  | Decimal.D4 d => 52 :: digits_of_uint d
  | Decimal.D5 d => 53 :: digits_of_uint d
  | Decimal.D6 d => 54 :: digits_of_uint d
  | Decimal.D7 d => 55 :: digits_of_uint d
  | Decimal.D8 d => 56 :: digits_of_uint d
  | Decimal.D9 d => 57 :: digits_of_uint d
  end.

(** [str(n)] for a natural number. *)
Definition str_of_nat (n : nat) : str := digits_of_uint (Nat.to_uint n).

(** [str(z)] for an integer. *)
Definition str_of_Z (z : Z) : str :=
  if (z <? 0)%Z then 45 :: str_of_nat (Z.to_nat (- z)) else str_of_nat (Z.to_nat z).

(** [f"{z:02d}"]: sign-aware zero padding to width two. *)
Definition format_02d (z : Z) : str :=
  if (z <? 0)%Z then str_of_Z z
  else if (z <? 10)%Z then 48 :: str_of_Z z
  else str_of_Z z.

(** [s.split('/')[0]] *)
Fixpoint before_slash (s : str) : str :=
  match s with
  | [] => []
  | c :: s' => if c =? 47 then [] else c :: before_slash s'
  end.

(** ** sanitize_filename (lines 83-121) *)

Definition Unknown : str := u "Unknown".

(** The dictionary [illegal_chars], in insertion order.  The last entry maps
    the quotation mark to itself, as the source has it. *)
Definition illegal_chars : list (N * str) :=
  [ (47, [0x2215]);   (* slash *)
    (58, [0x2236]);   (* colon *)
    (92, [0x29F5]);   (* backslash *)
    (63, [0xFF1F]);   (* question mark *)
    (42, [0xFF0A]);   (* asterisk *)
    (60, [0xFF1C]);   (* less-than *)
    (62, [0xFF1E]);   (* greater-than *)
    (124, [0xFF5C]);  (* vertical bar *)
    (34, [34]) ].     (* quotation mark *)

Definition sanitize_filename (name : str) : str :=
  match name with
  | [] => Unknown
  | _ =>
    let name := fold_left (fun acc ir => replace (fst ir) (snd ir) acc) illegal_chars name in
    let name := strip [32; 46] name in
    match name with
    | [] => Unknown
    | _ => name
    end
  end.

(** The eight characters that the table maps to a different character. *)
Definition replaced_chars : list N := [47; 58; 92; 63; 42; 60; 62; 124].

(** The character that stands for [c] after the nine replacements. *)
Definition lookalike (c : N) : N :=
  if c =? 47 then 0x2215 else
  if c =? 58 then 0x2236 else
  if c =? 92 then 0x29F5 else
  if c =? 63 then 0xFF1F else
  if c =? 42 then 0xFF0A else
  if c =? 60 then 0xFF1C else
  if c =? 62 then 0xFF1E else
  if c =? 124 then 0xFF5C else c.

(** ** pathlib: name, parent, suffix and stem of a path *)

Definition path_name (p : path) : str := List.last p [].

Definition path_parent (p : path) : path := removelast p.

(** The final component split at its last dot. *)
Fixpoint rsplit_dot (s : str) : option (str * str) :=
  match s with
  | [] => None
  | c :: s' =>
    match rsplit_dot s' with
    | Some (a, b) => Some (c :: a, b)
    | None => if c =? 46 then Some ([], s') else None
    end
  end.

Definition is_nil {A} (l : list A) : bool :=
  match l with
  | [] => true
  | _ => false
  end.

(** [PurePath.suffix]: [name[i:]] when [0 < i < len(name) - 1] for the last
    dot [i], else the empty string. *)
Definition name_suffix (name : str) : str :=
  match rsplit_dot name with
  | Some (a, b) => if is_nil a || is_nil b then [] else 46 :: b
  | None => []
  end.

(** [PurePath.stem] *)
Definition name_stem (name : str) : str :=
  match rsplit_dot name with
  | Some (a, b) => if is_nil a || is_nil b then name else a
  | None => name
  end.

Close Scope N_scope.

(** ** Data model *)

(** A file system entry. *)
Inductive node :=
| File (content : list byte)
| Dir.

Abbreviation FS := (gmap path node).

(** The root is a directory; every other path is what the map says. *)
Definition node_at (f : FS) (p : path) : option node :=
  match p with
  | [] => Some Dir
  | _ => f !! p
  end.

(** A track number is a string (ID3, FLAC) or an integer (MP4 [trkn]). *)
Inductive trackval :=
| TrackStr (s : str)
| TrackInt (z : Z).

(** The dictionary [metadata] of [extract_metadata]. *)
Record Metadata := {
  artist : option str;
  album_artist : option str;
  album : option str;
  title : option str;
  track_number : option trackval;
  year : option str;
  genre : option str
}.

Definition empty_metadata : Metadata :=
  {| artist := None; album_artist := None; album := None; title := None;
     track_number := None; year := None; genre := None |}.

(** [self.stats] (the two time stamps apart). *)
Record Stats := {
  total_entries : nat;
  valid_files : nat;
  missing_files : nat;
  metadata_read_success : nat;
  metadata_read_failed : nat;
  copied_success : nat;
  copied_skipped : nat;
  copied_failed : nat;
  total_size : nat
}.

Definition zero_stats : Stats :=
  {| total_entries := 0; valid_files := 0; missing_files := 0;
     metadata_read_success := 0; metadata_read_failed := 0;
     copied_success := 0; copied_skipped := 0; copied_failed := 0;
     total_size := 0 |}.

(** The exceptions that the modelled operations raise. *)
Inductive exn :=
| CollisionExhausted (name : str)   (* the Exception raised at line 260 *)
| FileNotFoundError (p : path)
| IsADirectoryError (p : path)
| NotADirectoryError (p : path)
| FileExistsError (p : path)
| SameFileError (p : path)
| CopyError (src dst : path)        (* an I/O failure of shutil.copy2 *)
| TagReadError (partial : Metadata) (* raised while the tags are read *)
| UnicodeDecodeError
| PathError                         (* raised while a playlist line is resolved *)
| OSError (errno : nat).            (* raised by a call that the environment lets fail *)

Inductive Status := Success | Skipped | Failed.

(** One element of [self.results]. *)
Record ImportRecord := {
  source_path : path;
  target_path : option path;
  filename : str;
  size_bytes : nat;
  status : Status;
  md5 : option str;
  metadata : option Metadata;
  error : option exn
}.

(** What mutagen does with a file: [MutagenFile] returns [None], an
    exception is raised with the dictionary filled as far as [partial], or
    the tags are read into the dictionary [raw] (before the empty strings
    are cleared). *)
Inductive mutagen_result :=
| Unrecognized
| ReadError (partial : Metadata)
| Tags (raw : Metadata).

(** The library functions and the environment. *)
Record World := {
  md5_hexdigest : list byte -> str;          (* hashlib.md5 over the chunks *)
  MutagenFile : path -> mutagen_result;
  py_int : str -> option Z;                  (* int(s); None is ValueError *)
  locate : str -> path -> option path;       (* lines 321-335; None is an exception *)
  decode_lines : list byte -> list str * bool; (* the lines read, and whether decoding then fails *)
  copy2_fails : path -> path -> bool;         (* copy2 fails before it opens the target *)
  dir_st_size : nat;                        (* st_size of a directory *)
  resolve_arg : str -> path;                 (* Path(arg).expanduser().resolve() *)
  default_target : path                      (* Path.home()/Music/Music/Media.localized/Music *)
}.

(** ** The monad: mutable state and exceptions *)

Record State := {
  fs : FS;
  stats : Stats;
  results : list ImportRecord
}.

Inductive outcome (A : Type) :=
| Ok (a : A) (s : State)
| Raise (e : exn) (s : State).

Arguments Ok {A} a s.
Arguments Raise {A} e s.

Definition M (A : Type) : Type := State -> outcome A.

Definition ret {A} (a : A) : M A := fun s => Ok a s.

Definition bind {A B} (m : M A) (k : A -> M B) : M B :=
  fun s =>
    match m s with
    | Ok a s' => k a s'
    | Raise e s' => Raise e s'
    end.

Definition raise {A} (e : exn) : M A := fun s => Raise e s.

(** [try: m except Exception as e: h e]; what [m] did to the state before it
    raised stays done. *)
Definition try_except {A} (m : M A) (h : exn -> M A) : M A :=
  fun s =>
    match m s with
    | Ok a s' => Ok a s'
    | Raise e s' => h e s'
    end.

Declare Scope m_scope.
Delimit Scope m_scope with M.
Notation "x <- m ;; k" := (bind m (fun x => k))
  (at level 20, m at level 99, k at level 200, only parsing) : m_scope.
Notation "m ;; k" := (bind m (fun _ => k))
  (at level 100, k at level 200, only parsing, right associativity) : m_scope.
Open Scope m_scope.

Definition final_state {A} (o : outcome A) : State :=
  match o with
  | Ok _ s => s
  | Raise _ s => s
  end.

Definition init_state (f : FS) : State :=
  {| fs := f; stats := zero_stats; results := [] |}.

(** ** The environment: calls that can fail *)

(** The calls of the script into the operating system.  [Log] stands for
    [self.log] at the given line of the source (lines 74-81: a print and an
    append to the log file), [JsonDump] for lines 484-485 and
    [PrintSummary] for the prints of lines 494-523. *)
Inductive call :=
| PathExists (p : path)     (* p.exists() *)
| PathIsFile (p : path)     (* p.is_file() *)
| PathStat (p : path)       (* p.stat() *)
| OpenRead (p : path)       (* open(p, 'r') or open(p, 'rb'), and the reads *)
| OsMkdir (p : path)        (* os.mkdir(p), from Path.mkdir *)
| Log (line : nat)
| JsonDump
| PrintSummary.

(** What the file system map does not show: a call can fail for want of a
    permission, on a full or read-only disk, for an over-long name.
    [fault c s] is the errno of the [OSError] that the call [c] raises when
    it is made in the state [s], if it raises one.  [copy2_breaks src dst s]
    is the number of bytes that [shutil.copy2] has written when it fails
    after it opened the target: the target is left with these bytes (with
    all of them when it is [copystat] that fails). *)
Class Faults := {
  fault : call -> State -> option nat;
  copy2_breaks : path -> path -> State -> option nat
}.

(** The environment in which no call fails for such a reason.  A statement
    that binds no environment is about this one. *)
#[global] Instance reliable : Faults :=
  {| fault := fun _ _ => None; copy2_breaks := fun _ _ _ => None |}.

(** A call that the environment can let fail: [OSError] when it does, [m]
    when it does not. *)
Definition sys `{Faults} {A} (c : call) (m : M A) : M A :=
  fun s =>
    match fault c s with
    | Some errno => Raise (OSError errno) s
    | None => m s
    end.

(** [self.log(message, level)] at the given line.  What is printed and
    written to the log file is not represented; that the call can raise
    is. *)
Definition log `{Faults} (line : nat) : M unit :=
  sys (Log line) (fun s => Ok tt s).

Definition set_fs (f : FS) : M unit :=
  fun s => Ok tt {| fs := f; stats := stats s; results := results s |}.

Definition update_stats (g : Stats -> Stats) : M unit :=
  fun s => Ok tt {| fs := fs s; stats := g (stats s); results := results s |}.

(** [self.results.append(r)] *)
Definition append_result (r : ImportRecord) : M unit :=
  fun s => Ok tt {| fs := fs s; stats := stats s; results := results s ++ [r] |}.

(** [self.stats[key] += n], one function for each key. *)
Definition add_total_entries (n : nat) (t : Stats) : Stats :=
  {| total_entries := total_entries t + n; valid_files := valid_files t;
     missing_files := missing_files t;
     metadata_read_success := metadata_read_success t;
     metadata_read_failed := metadata_read_failed t;
     copied_success := copied_success t; copied_skipped := copied_skipped t;
     copied_failed := copied_failed t; total_size := total_size t |}.

Definition add_valid_files (n : nat) (t : Stats) : Stats :=
  {| total_entries := total_entries t; valid_files := valid_files t + n;
     missing_files := missing_files t;
     metadata_read_success := metadata_read_success t;
     metadata_read_failed := metadata_read_failed t;
     copied_success := copied_success t; copied_skipped := copied_skipped t;
     copied_failed := copied_failed t; total_size := total_size t |}.

Definition add_missing_files (n : nat) (t : Stats) : Stats :=
  {| total_entries := total_entries t; valid_files := valid_files t;
     missing_files := missing_files t + n;
     metadata_read_success := metadata_read_success t;
     metadata_read_failed := metadata_read_failed t;
     copied_success := copied_success t; copied_skipped := copied_skipped t;
     copied_failed := copied_failed t; total_size := total_size t |}.

Definition add_metadata_read_success (n : nat) (t : Stats) : Stats :=
  {| total_entries := total_entries t; valid_files := valid_files t;
     missing_files := missing_files t;
     metadata_read_success := metadata_read_success t + n;
     metadata_read_failed := metadata_read_failed t;
     copied_success := copied_success t; copied_skipped := copied_skipped t;
     copied_failed := copied_failed t; total_size := total_size t |}.

Definition add_metadata_read_failed (n : nat) (t : Stats) : Stats :=
  {| total_entries := total_entries t; valid_files := valid_files t;
     missing_files := missing_files t;
     metadata_read_success := metadata_read_success t;
     metadata_read_failed := metadata_read_failed t + n;
     copied_success := copied_success t; copied_skipped := copied_skipped t;
     copied_failed := copied_failed t; total_size := total_size t |}.

Definition add_copied_success (n : nat) (t : Stats) : Stats :=
  {| total_entries := total_entries t; valid_files := valid_files t;
     missing_files := missing_files t;
     metadata_read_success := metadata_read_success t;
     metadata_read_failed := metadata_read_failed t;
     copied_success := copied_success t + n; copied_skipped := copied_skipped t;
     copied_failed := copied_failed t; total_size := total_size t |}.

Definition add_copied_skipped (n : nat) (t : Stats) : Stats :=
  {| total_entries := total_entries t; valid_files := valid_files t;
     missing_files := missing_files t;
     metadata_read_success := metadata_read_success t;
     metadata_read_failed := metadata_read_failed t;
     copied_success := copied_success t; copied_skipped := copied_skipped t + n;
     copied_failed := copied_failed t; total_size := total_size t |}.

Definition add_copied_failed (n : nat) (t : Stats) : Stats :=
  {| total_entries := total_entries t; valid_files := valid_files t;
     missing_files := missing_files t;
     metadata_read_success := metadata_read_success t;
     metadata_read_failed := metadata_read_failed t;
     copied_success := copied_success t; copied_skipped := copied_skipped t;
     copied_failed := copied_failed t + n; total_size := total_size t |}.

Definition add_total_size (n : nat) (t : Stats) : Stats :=
  {| total_entries := total_entries t; valid_files := valid_files t;
     missing_files := missing_files t;
     metadata_read_success := metadata_read_success t;
     metadata_read_failed := metadata_read_failed t;
     copied_success := copied_success t; copied_skipped := copied_skipped t;
     copied_failed := copied_failed t; total_size := total_size t + n |}.

(** ** The importer *)

(** [x or default] on a tag value: the value when it is a non-empty string. *)
Definition or_else (a : option str) (b : str) : str :=
  match a with
  | Some (c :: s) => c :: s
  | _ => b
  end.

(** Truth value of [metadata.get(key)]. *)
Definition truthy_str (o : option str) : bool :=
  match o with
  | Some (_ :: _) => true
  | _ => false
  end.

Definition truthy_track (o : option trackval) : bool :=
  match o with
  | Some (TrackStr (_ :: _)) => true
  | Some (TrackInt z) => negb (z =? 0)%Z
  | _ => false
  end.

(** [str(metadata["track_number"])] *)
Definition str_of_track (o : option trackval) : str :=
  match o with
  | Some (TrackStr s) => s
  | Some (TrackInt z) => str_of_Z z
  | None => u "None"
  end.

(** Lines 195-197: an empty string becomes [None]. *)
Definition clean_str (o : option str) : option str :=
  match o with
  | Some [] => None
  | _ => o
  end.

Definition clean_track (o : option trackval) : option trackval :=
  match o with
  | Some (TrackStr []) => None
  | _ => o
  end.

Definition clean_empty (m : Metadata) : Metadata :=
  {| artist := clean_str (artist m); album_artist := clean_str (album_artist m);
     album := clean_str (album m); title := clean_str (title m);
     track_number := clean_track (track_number m);
     year := clean_str (year m); genre := clean_str (genre m) |}.

Section Importer.

Context {env : Faults}.
Variable w : World.
Variable m3u8_path : path.
Variable target_base_dir : path.

(** [p.exists()]: whether [p] is there, unless [stat] fails with an error
    that pathlib does not take for an absent path. *)
Definition path_exists (p : path) : M bool :=
  sys (PathExists p)
    (fun s => Ok (bool_decide (is_Some (node_at (fs s) p))) s).

(** [p.is_file()] *)
Definition is_file (p : path) : M bool :=
  sys (PathIsFile p)
    (fun s =>
       Ok (match node_at (fs s) p with
           | Some (File _) => true
           | _ => false
           end) s).

(** [p.stat().st_size] *)
Definition stat_size (p : path) : M nat :=
  sys (PathStat p)
    (fun s =>
       match node_at (fs s) p with
       | Some (File c) => Ok (length c) s
       | Some Dir => Ok (dir_st_size w) s
       | None => Raise (FileNotFoundError p) s
       end).

(** Lines 375-392. *)
Definition _calculate_md5 (file_path : path) : M str :=
  sys (OpenRead file_path)
    (fun s =>
       match node_at (fs s) file_path with
       | Some (File c) => Ok (md5_hexdigest w c) s
       | Some Dir => Raise (IsADirectoryError file_path) s
       | None => Raise (FileNotFoundError file_path) s
       end).

(** Lines 349-373. *)
Definition _files_identical (file1 file2 : path) : M bool :=
  try_except
    (size1 <- stat_size file1 ;;
     size2 <- stat_size file2 ;;
     if negb (size1 =? size2) then ret false
     else
       hash1 <- _calculate_md5 file1 ;;
       hash2 <- _calculate_md5 file2 ;;
       ret (bool_decide (hash1 = hash2)))
    (fun _ => log 372 ;; ret false).

(** [p.mkdir(parents=True, exist_ok=True)]: the components of [rest] are
    created below [pre] one after the other; a regular file in the way
    raises, and so does an [os.mkdir] that the environment lets fail.  The
    directories made before stay. *)
Fixpoint mkdir_from (pre : path) (rest : path) : M unit :=
  match rest with
  | [] => ret tt
  | c :: rest' =>
    fun s =>
      match node_at (fs s) (pre ++ [c]) with
      | Some (File _) =>
        Raise (if is_nil rest' then FileExistsError (pre ++ [c])
               else NotADirectoryError (pre ++ [c])) s
      | Some Dir => mkdir_from (pre ++ [c]) rest' s
      | None =>
        sys (OsMkdir (pre ++ [c]))
          (fun s =>
             mkdir_from (pre ++ [c]) rest'
               {| fs := <[pre ++ [c] := Dir]> (fs s); stats := stats s;
                  results := results s |}) s
      end
  end.

Definition mkdir_p (p : path) : M unit := mkdir_from [] p.

(** [shutil.copy2(src, dst)]: into [dst] when it is a directory, else onto
    [dst], whose parent has to be a directory.  The target is opened for
    writing before the bytes are copied and [copystat] runs after them,
    with no cleanup: a copy that breaks leaves the target with the bytes
    written so far. *)
Definition copy2 (src dst : path) : M unit :=
  fun s =>
    if copy2_fails w src dst then Raise (CopyError src dst) s
    else
      match node_at (fs s) src with
      | None => Raise (FileNotFoundError src) s
      | Some Dir => Raise (IsADirectoryError src) s
      | Some (File c) =>
        let dst' := match node_at (fs s) dst with
                    | Some Dir => dst ++ [path_name src]
                    | _ => dst
                    end in
        if bool_decide (dst' = src) then Raise (SameFileError src) s
        else
          match node_at (fs s) dst' with
          | Some Dir => Raise (IsADirectoryError dst') s
          | _ =>
            match node_at (fs s) (path_parent dst') with
            | Some Dir =>
              match copy2_breaks src dst s with
              | Some written =>
                Raise (CopyError src dst)
                  {| fs := <[dst' := File (take written c)]> (fs s); stats := stats s;
                     results := results s |}
              | None =>
                Ok tt {| fs := <[dst' := File c]> (fs s); stats := stats s;
                         results := results s |}
              end
            | Some (File _) => Raise (NotADirectoryError dst') s
            | None => Raise (FileNotFoundError dst') s
            end
          end
      end.

(** Lines 123-205. *)
Definition extract_metadata (file_path : path) : M Metadata :=
  try_except
    (match MutagenFile w file_path with
     | Unrecognized => log 147 ;; ret empty_metadata
     | ReadError partial => raise (TagReadError partial)
     | Tags raw =>
       update_stats (add_metadata_read_success 1) ;;
       ret (clean_empty raw)
     end)
    (fun e =>
       log 202 ;;
       update_stats (add_metadata_read_failed 1) ;;
       ret (match e with
            | TagReadError partial => partial
            | _ => empty_metadata
            end)).

(** Lines 219-227: the directory [artist/album] below the target base. *)
Definition target_dir_of (metadata : Metadata) : path :=
  let artist := or_else (album_artist metadata)
                  (or_else (artist metadata) (u "Unknown Artist")) in
  let album := or_else (album metadata) (u "Unknown Album") in
  let artist_clean := sanitize_filename artist in
  let album_clean := sanitize_filename album in
  target_base_dir ++ [artist_clean; album_clean].

(** Lines 230-244: the file name before collisions are handled. *)
Definition target_filename (source_path : path) (metadata : Metadata) : str :=
  if truthy_str (title metadata) then
    let t := default [] (title metadata) in
    let suffix := name_suffix (path_name source_path) in
    let filename :=
      if truthy_track (track_number metadata) then
        match py_int w (before_slash (str_of_track (track_number metadata))) with
        | Some track_num => format_02d track_num ++ u " - " ++ t ++ suffix
        | None => t ++ suffix
        end
      else t ++ suffix in
    sanitize_filename filename
  else path_name source_path.

(** [f"{stem} ({counter}){suffix}"] below [target_dir]. *)
Definition numbered (target_dir : path) (stem suffix : str) (counter : nat) : path :=
  target_dir ++ [stem ++ u " (" ++ str_of_nat counter ++ u ")" ++ suffix].

(** Lines 254-260: the [while] loop.  [fuel] bounds the number of
    iterations; the loop leaves by itself before the hundredth. *)
Fixpoint collision_loop (fuel : nat) (target_dir : path) (stem suffix filename : str)
    (counter : nat) (target_path : path) : M path :=
  e <- path_exists target_path ;;
  if e then
    let target_path := numbered target_dir stem suffix counter in
    let counter := counter + 1 in
    if 100 <? counter then raise (CollisionExhausted filename)
    else
      match fuel with
      | O => raise (CollisionExhausted filename)
      | S fuel' => collision_loop fuel' target_dir stem suffix filename counter target_path
      end
  else ret target_path.

(** Lines 207-262. *)
Definition generate_target_path (source_path : path) (metadata : Metadata) : M path :=
  let target_dir := target_dir_of metadata in
  mkdir_p target_dir ;;
  let filename := target_filename source_path metadata in
  let target_path := target_dir ++ [filename] in
  e <- path_exists target_path ;;
  same <- (if e then _files_identical source_path target_path else ret false) ;;
  if e && negb same then
    collision_loop 100 target_dir (name_stem filename) (name_suffix filename)
      filename 1 target_path
  else ret target_path.

(** Lines 308-347. *)
Definition _resolve_path (path_str : str) (base_dir : path) : M (option path) :=
  try_except
    (match locate w path_str base_dir with
     | None => raise PathError
     | Some file_path =>
       e <- path_exists file_path ;;
       f <- (if e then is_file file_path else ret false) ;;
       if e && f then ret (Some file_path)
       else log 341 ;; update_stats (add_missing_files 1) ;; ret None
     end)
    (fun _ => log 346 ;; ret None).

(** Lines 283-298: the body of the loop over the lines. *)
Definition parse_line (m3u8_dir : path) (file_paths : list path) (line : str)
  : M (list path) :=
  let line := py_strip line in
  if is_nil line || startswith_hash line then ret file_paths
  else
    update_stats (add_total_entries 1) ;;
    file_path <- _resolve_path line m3u8_dir ;;
    match file_path with
    | Some p =>
      update_stats (add_valid_files 1) ;;
      ret (file_paths ++ [p])
    | None => log 298 ;; ret file_paths
    end.

Fixpoint parse_lines (m3u8_dir : path) (file_paths : list path) (lines : list str)
  : M (list path) :=
  match lines with
  | [] => ret file_paths
  | line :: lines' =>
    file_paths <- parse_line m3u8_dir file_paths line ;;
    parse_lines m3u8_dir file_paths lines'
  end.

(** [open(self.m3u8_path, 'r', encoding='utf-8')] and the iteration over it:
    the lines that decode, and whether reading fails after them. *)
Definition open_lines (p : path) : M (list str * bool) :=
  sys (OpenRead p)
    (fun s =>
       match node_at (fs s) p with
       | Some (File c) => Ok (decode_lines w c) s
       | Some Dir => Raise (IsADirectoryError p) s
       | None => Raise (FileNotFoundError p) s
       end).

(** Lines 264-306. *)
Definition parse_m3u8 : M (list path) :=
  log 271 ;;
  e <- path_exists m3u8_path ;;
  if negb e then log 274 ;; ret []
  else
    try_except
      (text <- open_lines m3u8_path ;;
       file_paths <- parse_lines (path_parent m3u8_path) [] (fst text) ;;
       if snd text then raise UnicodeDecodeError
       else log 300 ;; ret file_paths)
      (fun _ => log 303 ;; ret []).

Definition failed_record (source_path : path) (e : exn) : ImportRecord :=
  {| source_path := source_path; target_path := None;
     filename := path_name source_path; size_bytes := 0; status := Failed;
     md5 := None; metadata := None; error := Some e |}.

(** Lines 410-464: the body of the loop over the files. *)
Definition copy_one (source_path : path) : M unit :=
  try_except
    (metadata <- extract_metadata source_path ;;
     target_path <- generate_target_path source_path metadata ;;
     e <- path_exists target_path ;;
     same <- (if e then _files_identical source_path target_path else ret false) ;;
     status <- (if e && same then
                  log 423 ;;
                  update_stats (add_copied_skipped 1) ;;
                  ret Skipped
                else
                  copy2 source_path target_path ;;
                  file_size <- stat_size target_path ;;
                  update_stats (add_total_size file_size) ;;
                  update_stats (add_copied_success 1) ;;
                  log 438 ;;
                  ret Success) ;;
     size <- stat_size target_path ;;
     digest <- _calculate_md5 target_path ;;
     append_result
       {| source_path := source_path; target_path := Some target_path;
          filename := path_name target_path; size_bytes := size;
          status := status; md5 := Some digest;
          metadata := Some metadata; error := None |})
    (fun e =>
       log 452 ;;
       update_stats (add_copied_failed 1) ;;
       append_result (failed_record source_path e)).

Fixpoint copy_loop (file_paths : list path) : M unit :=
  match file_paths with
  | [] => ret tt
  | source_path :: rest => copy_one source_path ;; copy_loop rest
  end.

(** Lines 394-464. *)
Definition copy_files (file_paths : list path) : M unit :=
  log 401 ;;
  log 402 ;;
  mkdir_p target_base_dir ;;
  copy_loop file_paths.

(** Lines 466-490.  The report is not an entry of the file system map;
    that writing it can fail is represented, and the failure is caught. *)
Definition save_results : M unit :=
  try_except
    (sys JsonDump (ret tt) ;;
     log 487)
    (fun _ => log 490).

(** Lines 525-550.  Of [print_summary] the run sees that its prints can
    raise; its closing message is [print_summary] below. *)
Definition run : M bool :=
  try_except
    (file_paths <- parse_m3u8 ;;
     if is_nil file_paths then log 532 ;; ret false
     else
       copy_files file_paths ;;
       save_results ;;
       sys PrintSummary (ret tt) ;;
       ret true)
    (fun _ => log 547 ;; log 549 ;; ret false).

End Importer.

(** Lines 575 and 48-51: the target base directory is the second argument
    when there is a non-empty one. *)
Definition target_of_args (w : World) (rest : list str) : path :=
  match rest with
  | (c :: t) :: _ => resolve_arg w (c :: t)
  | _ => default_target w
  end.

(** Lines 553-581: the exit status and the state that the process leaves.
    An exception that leaves [run] ends the process with status 1. *)
Definition main `{Faults} (w : World) (argv : list str) (f : FS) : Z * State :=
  match argv with
  | _ :: m3u8 :: rest =>
    match run w (resolve_arg w m3u8) (target_of_args w rest) (init_state f) with
    | Ok success s => ((if success then 0 else 1)%Z, s)
    | Raise _ s => (1%Z, s)
    end
  | _ => (1%Z, init_state f)
  end.


(** ** The digest loop of _calculate_md5 and the message of print_summary *)

(** A hash object of hashlib, as [_calculate_md5] uses it. *)
Class Hasher (H : Type) := {
  md5_new : H;                          (* hashlib.md5() *)
  md5_update : H -> list byte -> H;     (* md5_hash.update(chunk) *)
  md5_digest : H -> str                 (* md5_hash.hexdigest() *)
}.

(** The size of one read at line 389. *)
Definition chunk_size : nat := N.to_nat 8192.

(** [f.read(n)] on a file object with the unread bytes [rest]: the bytes
    read and the bytes left. *)
Definition file_read (n : nat) (rest : list byte) : list byte * list byte :=
  (take n rest, drop n rest).

(** Lines 389-390: the loop over the reads of 8192 bytes, which ends with
    the first empty read; every chunk before it is fed to the hash object.
    [fuel] bounds the number of reads. *)
Fixpoint md5_read_loop {H} `{Hasher H} (fuel : nat) (md5_hash : H) (rest : list byte)
    : option H :=
  match fuel with
  | O => None
  | S fuel' =>
    let (chunk, rest') := file_read chunk_size rest in
    if is_nil chunk then Some md5_hash
    else md5_read_loop fuel' (md5_update md5_hash chunk) rest'
  end.

(** The closing message of [print_summary]. *)
Inductive Verdict :=
| CopyFailures      (* line 517 *)
| MissingSources    (* line 519 *)
| MetadataFailures  (* line 521 *)
| AllProcessed.     (* line 523 *)

(** Lines 516-523: of what [print_summary] prints, the message that closes
    the summary; the lines before it show the counters as they are. *)
Definition print_summary (t : Stats) : Verdict :=
  if 0 <? copied_failed t then CopyFailures
  else if 0 <? missing_files t then MissingSources
  else if 0 <? metadata_read_failed t then MetadataFailures
  else AllProcessed.


(** ** Vocabulary of the statements *)

(** The name after the replacements and the stripping of line 115. *)
Definition body (name : str) : str := strip [32; 46]%N (map lookalike name).

(** What a computation establishes from the state [s]: [Q] when it returns,
    [E] when it raises. *)
Definition post {A} (m : M A) (s : State) (Q : A -> State -> Prop)
    (E : exn -> State -> Prop) : Prop :=
  match m s with
  | Ok a s' => Q a s'
  | Raise e s' => E e s'
  end.

(** The file system only gained entries; counters and records are as before. *)
Definition grows (s s' : State) : Prop :=
  fs s ⊆ fs s' /\ stats s' = stats s /\ results s' = results s.

(** What [path_exists] returns in the file system [f]. *)
Definition exists_in (f : FS) (p : path) : bool :=
  bool_decide (is_Some (node_at f p)).

(** Every directory on the way to [p], and [p] itself, is a directory. *)
Definition dirs_ok (f : FS) (p : path) : Prop :=
  forall k, k <= length p -> node_at f (take k p) = Some Dir.

(** Regular files of equal size and equal digest. *)
Definition identical_files (w : World) (f : FS) (a b : path) : Prop :=
  exists ca cb, node_at f a = Some (File ca) /\ node_at f b = Some (File cb) /\
    length ca = length cb /\ md5_hexdigest w ca = md5_hexdigest w cb.

(** The dictionary that [extract_metadata] returns for a file. *)
Definition metadata_of (w : World) (file_path : path) : Metadata :=
  match MutagenFile w file_path with
  | Unrecognized => empty_metadata
  | ReadError partial => partial
  | Tags raw => clean_empty raw
  end.

(** What [extract_metadata] does to the counters. *)
Definition meta_update (w : World) (file_path : path) (t : Stats) : Stats :=
  match MutagenFile w file_path with
  | Unrecognized => t
  | ReadError _ => add_metadata_read_failed 1 t
  | Tags _ => add_metadata_read_success 1 t
  end.

(** What the outcome recorded in [r] does to the counters. *)
Definition outcome_update (r : ImportRecord) (t : Stats) : Stats :=
  match status r with
  | Success => add_copied_success 1 (add_total_size (size_bytes r) t)
  | Skipped => add_copied_skipped 1 t
  | Failed => add_copied_failed 1 t
  end.

(** What one file of the batch, recorded as [r], does to the counters. *)
Definition item_update (w : World) (t : Stats) (r : ImportRecord) : Stats :=
  outcome_update r (meta_update w (source_path r) t).

(** The candidate path of lines 219-246, before collisions are handled. *)
Definition candidate_path (w : World) (target_base_dir : path) (source_path : path)
    (metadata : Metadata) : path :=
  target_dir_of target_base_dir metadata ++ [target_filename w source_path metadata].

(** What a record says about the file system [f] it was written in. *)
Definition record_ok (w : World) (target_base_dir : path) (f : FS)
    (r : ImportRecord) : Prop :=
  match status r with
  | Failed =>
    target_path r = None /\ md5 r = None /\ size_bytes r = 0 /\ metadata r = None
  | _ =>
    metadata r = Some (metadata_of w (source_path r)) /\ error r = None /\
    exists t c, target_path r = Some t /\ filename r = path_name t /\
      node_at f t = Some (File c) /\
      md5 r = Some (md5_hexdigest w c) /\ size_bytes r = length c /\
      identical_files w f (source_path r) t /\
      dirs_ok f (target_dir_of target_base_dir (metadata_of w (source_path r)))
  end.

(** What [_files_identical] returns in the file system [f]. *)
Definition identical (w : World) (f : FS) (a b : path) : bool :=
  match node_at f a, node_at f b with
  | Some (File ca), Some (File cb) =>
    (length ca =? length cb) && bool_decide (md5_hexdigest w ca = md5_hexdigest w cb)
  | _, _ => false
  end.

(** Equality of two statuses. *)
Definition is_status (a b : Status) : bool :=
  match a, b with
  | Success, Success | Skipped, Skipped | Failed, Failed => true
  | _, _ => false
  end.

(** The number of records with the given status. *)
Definition count_status (st : Status) (rs : list ImportRecord) : nat :=
  length (filter (fun r => is_status (status r) st = true) rs).

(** The bytes of the records with status success. *)
Fixpoint copied_bytes (rs : list ImportRecord) : nat :=
  match rs with
  | [] => 0
  | r :: rs' =>
    match status r with
    | Success => size_bytes r + copied_bytes rs'
    | _ => copied_bytes rs'
    end
  end.


(** [MutagenFile] returned [None]. *)
Definition is_unrecognized (r : mutagen_result) : bool :=
  match r with
  | Unrecognized => true
  | _ => false
  end.

(** The files that mutagen does not recognize. *)
Definition count_unrecognized (w : World) (l : list path) : nat :=
  length (filter (fun p => is_unrecognized (MutagenFile w p) = true) l).

(** The line is neither blank nor a comment: it is counted as an entry. *)
Definition counted (raw : str) : bool :=
  negb (is_nil (py_strip raw) || startswith_hash (py_strip raw)).

(** What [_resolve_path] returns for [line] in the file system [f]. *)
Definition resolved (w : World) (f : FS) (base : path) (line : str) : option path :=
  match locate w line base with
  | Some p =>
    match node_at f p with
    | Some (File _) => Some p
    | _ => None
    end
  | None => None
  end.

(** [line] names a path that is no regular file. *)
Definition names_missing (w : World) (f : FS) (base : path) (line : str) : bool :=
  match locate w line base with
  | Some p =>
    match node_at f p with
    | Some (File _) => false
    | _ => true
    end
  | None => false
  end.

(** The counters after one line of the playlist. *)
Definition line_stats (w : World) (f : FS) (base : path) (t : Stats) (raw : str) : Stats :=
  if counted raw then
    match resolved w f base (py_strip raw) with
    | Some _ => add_valid_files 1 (add_total_entries 1 t)
    | None =>
      if names_missing w f base (py_strip raw)
      then add_missing_files 1 (add_total_entries 1 t)
      else add_total_entries 1 t
    end
  else t.

(** The file that a line of the playlist adds to the batch. *)
Definition line_path (w : World) (f : FS) (base : path) (raw : str) : option path :=
  if counted raw then resolved w f base (py_strip raw) else None.

(** The files that the lines of a playlist resolve to, in order. *)
Fixpoint valid_paths (w : World) (f : FS) (base : path) (lines : list str) : list path :=
  match lines with
  | [] => []
  | raw :: lines' =>
    match line_path w f base raw with
    | Some p => p :: valid_paths w f base lines'
    | None => valid_paths w f base lines'
    end
  end.

(** [p] is a regular file of [f]. *)
Definition is_file_in (f : FS) (p : path) : bool :=
  match node_at f p with
  | Some (File _) => true
  | _ => false
  end.

(** No regular file stands where [p] or a directory on the way to it has to be. *)
Definition creatable (f : FS) (p : path) : Prop :=
  forall k c, 1 <= k <= length p -> node_at f (take k p) <> Some (File c).

(** The lines of the playlist [m3u8_path], when it is a regular file that is
    read to its end. *)
Definition playlist_lines (w : World) (m3u8_path : path) (f : FS) : option (list str) :=
  match node_at f m3u8_path with
  | Some (File c) => if snd (decode_lines w c) then None else Some (fst (decode_lines w c))
  | _ => None
  end.

(** The directory of the file is there and its candidate path holds a copy
    of it. *)
Definition settled (w : World) (target_base_dir : path) (f : FS) (src : path) : Prop :=
  dirs_ok f (target_dir_of target_base_dir (metadata_of w src)) /\
  identical_files w f src (candidate_path w target_base_dir src (metadata_of w src)).

(** The state after the lines of the playlist have been parsed. *)
Definition parsed_state (w : World) (m3u8_path : path) (f : FS) (lines : list str) : State :=
  {| fs := f;
     stats := fold_left (line_stats w f (path_parent m3u8_path)) lines zero_stats;
     results := [] |}.

(** No copy has been counted. *)
Definition no_copies (t : Stats) : Prop :=
  copied_success t = 0 /\ copied_skipped t = 0 /\ copied_failed t = 0 /\ total_size t = 0.

(** ** Vocabulary of the further properties *)

(** From [f] to [f'] only directories were added, each on the way to [d]. *)
Definition dirs_added (d : path) (f f' : FS) : Prop :=
  forall p, node_at f' p = node_at f p \/
    (node_at f p = None /\ node_at f' p = Some Dir /\ p `prefix_of` d).

(** The record of a file that was skipped or copied to [t], which holds [c]. *)
Definition done_record (w : World) (source_path t : path) (st : Status) (c : list byte)
    : ImportRecord :=
  {| source_path := source_path; target_path := Some t; filename := path_name t;
     size_bytes := length c; status := st; md5 := Some (md5_hexdigest w c);
     metadata := Some (metadata_of w source_path); error := None |}.

(** The state after [extract_metadata]. *)
Definition after_metadata (w : World) (src : path) (s : State) : State :=
  {| fs := fs s; stats := meta_update w src (stats s); results := results s |}.

(** The state after the handler of lines 451-464. *)
Definition failed_state (src : path) (e : exn) (s : State) : State :=
  {| fs := fs s; stats := add_copied_failed 1 (stats s);
     results := results s ++ [failed_record src e] |}.



(** A name that can stand for one directory: not empty, none of the eight
    replaced characters (the slash among them) in it, and neither of the two
    dot names. *)
Definition clean_name (x : str) : Prop :=
  x <> [] /\ Forall (fun c => char_in c replaced_chars = false) x /\
  x <> [46%N] /\ x <> [46%N; 46%N].

(** The number of lines that satisfy [P]. *)
Fixpoint count_lines (P : str -> bool) (lines : list str) : nat :=
  match lines with
  | [] => 0
  | raw :: lines' => (if P raw then 1 else 0) + count_lines P lines'
  end.

(** A counted line that names a path which is no regular file. *)
Definition missing_line (w : World) (f : FS) (base : path) (raw : str) : bool :=
  counted raw && names_missing w f base (py_strip raw).

(** A counted line whose resolution raises (lines 345-347). *)
Definition unlocatable (w : World) (base : path) (raw : str) : bool :=
  counted raw &&
  match locate w (py_strip raw) base with
  | Some _ => false
  | None => true
  end.

(** Reading the tags raised. *)
Definition is_read_error (r : mutagen_result) : bool :=
  match r with
  | ReadError _ => true
  | _ => false
  end.

(** The files whose tags could not be read. *)
Definition count_read_errors (w : World) (l : list path) : nat :=
  length (filter (fun p => is_read_error (MutagenFile w p) = true) l).

(** The targets of the success records, in order. *)
Fixpoint success_targets (rs : list ImportRecord) : list path :=
  match rs with
  | [] => []
  | r :: rs' =>
    match status r, target_path r with
    | Success, Some t => t :: success_targets rs'
    | _, _ => success_targets rs'
    end
  end.


(** ** A concrete world and concrete file systems, for the examples *)

(** A playlist text: ASCII bytes, lines ended by a line feed. *)
Fixpoint split_lines (cur : str) (bs : list byte) : list str :=
  match bs with
  | [] => match cur with
          | [] => []
          | _ => [cur]
          end
  | b :: bs' =>
    if (Byte.to_N b =? 10)%N then (cur ++ [10%N]) :: split_lines [] bs'
    else split_lines (cur ++ [Byte.to_N b]) bs'
  end.

(** A slash-separated absolute path. *)
Fixpoint split_slash (cur : str) (s : str) : path :=
  match s with
  | [] => match cur with
          | [] => []
          | _ => [cur]
          end
  | c :: s' =>
    if (c =? 47)%N then
      match cur with
      | [] => split_slash [] s'
      | _ => cur :: split_slash [] s'
      end
    else split_slash (cur ++ [c]) s'
  end.

Definition abs (s : string) : path := split_slash [] (u s).

Definition bytes_of (s : string) : list byte := list_byte_of_string s.

(** The bytes of a text file with the given lines. *)
Definition lines_file (ls : list string) : list byte :=
  concat (map (fun l => bytes_of l ++ [x0a]) ls).

(** Decimal digits only. *)
Fixpoint digits_value (acc : Z) (s : str) : option Z :=
  match s with
  | [] => Some acc
  | c :: s' =>
    if ((48 <=? c) && (c <=? 57))%N
    then digits_value (10 * acc + Z.of_N (c - 48)) s'
    else None
  end.

Definition ex_int (s : str) : option Z :=
  match s with
  | [] => None
  | _ => digits_value 0 s
  end.

Definition tagged (a b t : string) : Metadata :=
  {| artist := Some (u a); album_artist := None; album := Some (u b);
     title := Some (u t); track_number := None; year := None; genre := None |}.

(** Every file is tagged artist A, album B, title C, except [plain.bin]
    (not recognized) and [broken.mp3] (reading its tags fails). *)
Definition ex_mutagen (p : path) : mutagen_result :=
  if bool_decide (path_name p = u "plain.bin") then Unrecognized
  else if bool_decide (path_name p = u "broken.mp3") then ReadError empty_metadata
  else Tags (tagged "A" "B" "C").

Definition ex_world : World :=
  {| md5_hexdigest := map Byte.to_N;
     MutagenFile := ex_mutagen;
     py_int := ex_int;
     locate := fun line base => Some (base ++ [line]);
     decode_lines := fun c => (split_lines [] c, false);
     copy2_fails := fun _ _ => false;
     dir_st_size := 4096;
     resolve_arg := split_slash [];
     default_target := abs "/home/Music/Music/Media.localized/Music" |}.

Definition ex_argv : list str := [u "step0.py"; u "/pl/list.m3u8"; u "/lib"].

(** The playlist of the specification: a comment, a missing file, a song. *)
Definition ex_fs_spec : FS :=
  <[abs "/pl/list.m3u8" :=
     File (lines_file ["#comment"%string; "missing.mp3"%string; "song.mp3"%string])]>
  (<[abs "/pl/song.mp3" := File (bytes_of "xyz")]>
  (<[abs "/pl" := Dir]> ∅)).

Definition ex_m3u8 : path := abs "/pl/list.m3u8".

Definition ex_base : path := abs "/lib".

Definition ex_song : path := abs "/pl/song.mp3".

(** A playlist with the song alone. *)
Definition ex_fs_plain : FS :=
  <[abs "/pl/list.m3u8" := File (lines_file ["song.mp3"%string])]>
  (<[abs "/pl/song.mp3" := File (bytes_of "xyz")]>
  (<[abs "/pl" := Dir]> ∅)).


(** The song twice in the playlist. *)
Definition ex_fs_twice : FS :=
  <[abs "/pl/list.m3u8" := File (lines_file ["song.mp3"%string; "song.mp3"%string])]>
  (<[abs "/pl/song.mp3" := File (bytes_of "xyz")]>
  (<[abs "/pl" := Dir]> ∅)).

(** Two files of different content with the same tags. *)
Definition ex_fs_clash : FS :=
  <[abs "/pl/list.m3u8" := File (lines_file ["one.mp3"%string; "two.mp3"%string])]>
  (<[abs "/pl/one.mp3" := File (bytes_of "xyz")]>
  (<[abs "/pl/two.mp3" := File (bytes_of "uvw!")]>
  (<[abs "/pl" := Dir]> ∅))).

(** The candidate path is taken by another content, and the first numbered
    path holds a copy of the song. *)
Definition ex_fs_suffix : FS :=
  <[abs "/lib/A/B/C (1).mp3" := File (bytes_of "xyz")]>
  (<[abs "/lib/A/B/C.mp3" := File (bytes_of "other")]>
  (<[abs "/lib/A/B" := Dir]>
  (<[abs "/lib/A" := Dir]>
  (<[abs "/lib" := Dir]>
  (<[abs "/pl/song.mp3" := File (bytes_of "xyz")]>
  (<[abs "/pl" := Dir]> ∅)))))).

(** A playlist with one file that mutagen does not recognize. *)
Definition ex_fs_unrecognized : FS :=
  <[abs "/pl/list.m3u8" := File (lines_file ["plain.bin"%string])]>
  (<[abs "/pl/plain.bin" := File (bytes_of "data")]>
  (<[abs "/pl" := Dir]> ∅)).

(** A record that stands for a missing element of a list. *)
Definition no_record : ImportRecord := failed_record [] PathError.

(** A hasher for the examples: the state is the bytes fed so far, the digest
    their code points, as [md5_hexdigest] of [ex_world] has it. *)
Definition ex_hasher : Hasher (list byte) :=
  {| md5_new := []; md5_update := fun h chunk => h ++ chunk; md5_digest := map Byte.to_N |}.

(** A file of 8192 + 3 bytes. *)
Definition ex_long_content : list byte := repeat x61 chunk_size ++ bytes_of "xyz".

(** The library after the playlist with the song alone has been imported. *)
Definition ex_fs_done : FS := fs (snd (main ex_world ex_argv ex_fs_plain)).

(** The candidate path of the song and its ninety-nine numbered paths are
    all taken by another content. *)
Definition ex_fs_full : FS :=
  fold_right
    (fun n f => <[numbered (abs "/lib/A/B") (u "C") (u ".mp3") n := File (bytes_of "other")]> f)
    ex_fs_suffix (seq 1 99).

(** The world of the examples with a [shutil.copy2] that always fails. *)
Definition ex_world_failing : World :=
  {| md5_hexdigest := md5_hexdigest ex_world;
     MutagenFile := MutagenFile ex_world;
     py_int := py_int ex_world;
     locate := locate ex_world;
     decode_lines := decode_lines ex_world;
     copy2_fails := fun _ _ => true;
     dir_st_size := dir_st_size ex_world;
     resolve_arg := resolve_arg ex_world;
     default_target := default_target ex_world |}.

Definition ex_one : path := abs "/pl/one.mp3".

Definition ex_two : path := abs "/pl/two.mp3".

Definition ex_long_file : path := abs "/pl/long.bin".

Definition ex_fs_long : FS := <[ex_long_file := File ex_long_content]> ∅.

(** * Properties *)

(** ** Stripping and sanitizing *)

Open Scope N_scope.

Lemma lstrip_suffix chars s : exists k, s = k ++ lstrip chars s.
Proof.
  induction s as [|c s [k Hk]]; simpl.
  - exists []. reflexivity.
  - destruct (char_in c chars).
    + exists (c :: k). simpl. congruence.
    + exists []. reflexivity.
Qed.

Lemma lstrip_head chars s c t : lstrip chars s = c :: t -> char_in c chars = false.
Proof.
  induction s as [|a s IH]; simpl; [discriminate|].
  destruct (char_in a chars) eqn:E; [exact IH|].
  intros [= -> _]. exact E.
Qed.

Lemma lstrip_fixed chars s :
  match s with [] => True | c :: _ => char_in c chars = false end ->
  lstrip chars s = s.
Proof. destruct s as [|c s]; simpl; [reflexivity|]. intros ->. reflexivity. Qed.

Lemma lstrip_idem chars s : lstrip chars (lstrip chars s) = lstrip chars s.
Proof.
  apply lstrip_fixed. destruct (lstrip chars s) eqn:E; [exact I|].
  eapply lstrip_head, E.
Qed.

Lemma rstrip_prefix chars s : exists k, s = rstrip chars s ++ k.
Proof.
  unfold rstrip. destruct (lstrip_suffix chars (rev s)) as [k Hk].
  exists (rev k). rewrite <- rev_app_distr, <- Hk, rev_involutive. reflexivity.
Qed.

Lemma rstrip_idem chars s : rstrip chars (rstrip chars s) = rstrip chars s.
Proof. unfold rstrip. rewrite rev_involutive, lstrip_idem. reflexivity. Qed.

Lemma strip_head chars s c t : strip chars s = c :: t -> char_in c chars = false.
Proof.
  unfold strip. intros H.
  destruct (rstrip_prefix chars (lstrip chars s)) as [k Hk].
  rewrite H in Hk. simpl in Hk. eapply lstrip_head, Hk.
Qed.

Lemma strip_last chars s t c : strip chars s = t ++ [c] -> char_in c chars = false.
Proof.
  unfold strip, rstrip. intros H.
  apply (f_equal (@rev N)) in H. rewrite rev_involutive, rev_app_distr in H.
  simpl in H. eapply lstrip_head, H.
Qed.

Lemma strip_idem chars s : strip chars (strip chars s) = strip chars s.
Proof.
  unfold strip at 1.
  rewrite (lstrip_fixed chars (strip chars s)).
  - unfold strip. apply rstrip_idem.
  - destruct (strip chars s) eqn:E; [exact I|]. eapply strip_head, E.
Qed.

Lemma strip_sublist chars s : exists a b, s = a ++ strip chars s ++ b.
Proof.
  unfold strip.
  destruct (lstrip_suffix chars s) as [a Ha].
  destruct (rstrip_prefix chars (lstrip chars s)) as [b Hb].
  exists a, b. rewrite <- Hb. exact Ha.
Qed.

Lemma replace_single old new s :
  replace old [new] s = map (fun c => if c =? old then new else c) s.
Proof.
  unfold replace. induction s as [|c s IH]; simpl; [reflexivity|].
  rewrite IH. destruct (c =? old); reflexivity.
Qed.

Lemma lookalike_table c :
  (fun c => if c =? 34 then 34 else c)
    ((fun c => if c =? 124 then 0xFF5C else c)
    ((fun c => if c =? 62 then 0xFF1E else c)
    ((fun c => if c =? 60 then 0xFF1C else c)
    ((fun c => if c =? 42 then 0xFF0A else c)
    ((fun c => if c =? 63 then 0xFF1F else c)
    ((fun c => if c =? 92 then 0x29F5 else c)
    ((fun c => if c =? 58 then 0x2236 else c)
    ((fun c => if c =? 47 then 0x2215 else c) c)))))))) = lookalike c.
Proof.
  unfold lookalike. cbv beta.
  repeat match goal with
  | |- context [?x =? ?y] =>
      lazymatch x with
      | c => destruct (N.eqb_spec x y) as [->|?]
      end; try reflexivity
  end.
Qed.

Lemma replace_all s :
  fold_left (fun acc ir => replace (fst ir) (snd ir) acc) illegal_chars s
  = map lookalike s.
Proof.
  unfold illegal_chars. cbn [fold_left fst snd].
  rewrite !replace_single, !map_map.
  apply map_ext. intros c. apply lookalike_table.
Qed.

Lemma sanitize_filename_eq name :
  sanitize_filename name = if is_nil (body name) then Unknown else body name.
Proof.
  unfold sanitize_filename, body. destruct name as [|c s]; [reflexivity|].
  cbv zeta. rewrite replace_all.
  destruct (strip [32; 46] (map lookalike (c :: s))); reflexivity.
Qed.

Lemma lookalike_idem c : lookalike (lookalike c) = lookalike c.
Proof.
  unfold lookalike at 2.
  repeat match goal with
  | |- context [c =? ?y] => destruct (N.eqb_spec c y) as [->|?]; [reflexivity|]
  end.
  unfold lookalike.
  repeat match goal with
  | |- context [c =? ?y] => destruct (N.eqb_spec c y) as [->|?]; [congruence|]
  end. reflexivity.
Qed.

Lemma lookalike_not_replaced c : char_in (lookalike c) replaced_chars = false.
Proof.
  unfold lookalike.
  repeat match goal with
  | |- context [c =? ?y] => destruct (N.eqb_spec c y) as [->|?]; [reflexivity|]
  end.
  unfold char_in, replaced_chars. cbn [existsb].
  repeat match goal with
  | |- context [c =? ?y] => destruct (N.eqb_spec c y) as [->|?]; [congruence|]
  end. reflexivity.
Qed.

Lemma body_fixed name : map lookalike (body name) = body name.
Proof.
  unfold body.
  destruct (strip_sublist [32; 46] (map lookalike name)) as (a & b & H).
  assert (Hall : Forall (fun c => lookalike c = c) (map lookalike name)).
  { apply List.Forall_forall. intros c Hc. apply in_map_iff in Hc as (d & <- & _).
    apply lookalike_idem. }
  rewrite H in Hall at 1.
  apply Forall_app in Hall as [_ Hall]. apply Forall_app in Hall as [Hall _].
  clear H. induction Hall as [|c l Hc _ IH]; simpl; [reflexivity|]. rewrite Hc, IH. reflexivity.
Qed.

Lemma body_idem name : body (body name) = body name.
Proof. unfold body at 1. rewrite body_fixed. unfold body. apply strip_idem. Qed.

Lemma sanitize_filename_idempotent name :
  sanitize_filename (sanitize_filename name) = sanitize_filename name.
Proof.
  rewrite (sanitize_filename_eq name).
  destruct (body name) eqn:E; cbn [is_nil]; [reflexivity|].
  rewrite <- E, sanitize_filename_eq, body_idem, E. reflexivity.
Qed.

Lemma sanitize_filename_nonempty name : sanitize_filename name <> [].
Proof.
  rewrite sanitize_filename_eq. destruct (body name); simpl; discriminate.
Qed.

Close Scope N_scope.

(** ** The monad and the file system *)

Lemma post_conseq {A} (m : M A) s (Q Q' : A -> State -> Prop)
    (E E' : exn -> State -> Prop) :
  post m s Q' E' ->
  (forall a s', Q' a s' -> Q a s') -> (forall e s', E' e s' -> E e s') ->
  post m s Q E.
Proof. unfold post. destruct (m s); eauto. Qed.

Lemma grows_refl s : grows s s.
Proof. repeat split; reflexivity. Qed.

Lemma grows_trans s1 s2 s3 : grows s1 s2 -> grows s2 s3 -> grows s1 s3.
Proof.
  intros (H1 & H2 & H3) (H4 & H5 & H6). repeat split.
  - etrans; eassumption.
  - congruence.
  - congruence.
Qed.

Lemma node_at_mono (f f' : FS) p n : f ⊆ f' -> node_at f p = Some n -> node_at f' p = Some n.
Proof.
  intros Hsub. destruct p as [|c p]; simpl; [exact id|].
  intros H. eapply lookup_weaken; eassumption.
Qed.

Lemma node_at_insert_eq (f : FS) p n : p <> [] -> node_at (<[p := n]> f) p = Some n.
Proof. destruct p; [congruence|]. intros _. simpl. apply lookup_insert_eq. Qed.

Lemma node_at_insert_ne (f : FS) p q n : p <> q -> node_at (<[p := n]> f) q = node_at f q.
Proof. intros H. destruct q; [reflexivity|]. simpl. apply lookup_insert_ne, H. Qed.

Lemma node_at_None_insert (f : FS) p n : node_at f p = None -> f ⊆ <[p := n]> f.
Proof.
  destruct p as [|c p]; simpl; [discriminate|]. intros H. apply insert_subseteq, H.
Qed.

Lemma dirs_ok_mono (f f' : FS) p : f ⊆ f' -> dirs_ok f p -> dirs_ok f' p.
Proof. intros Hsub H k Hk. eapply node_at_mono; eauto. Qed.

Lemma identical_files_mono (w : World) (f f' : FS) (a b : path) :
  f ⊆ f' -> identical_files w f a b -> identical_files w f' a b.
Proof.
  intros Hsub (ca & cb & Ha & Hb & H). exists ca, cb.
  split; [|split]; eauto using node_at_mono.
Qed.

Lemma record_ok_mono (w : World) (base : path) (f f' : FS) (r : ImportRecord) :
  f ⊆ f' -> record_ok w base f r -> record_ok w base f' r.
Proof.
  intros Hsub. unfold record_ok.
  destruct (status r); try exact id;
    intros (Hm & He & t & c & Ht & Hn & Hf & Hd & Hs & Hi & Hdir);
    (split; [exact Hm|]; split; [exact He|]); exists t, c;
    repeat split; eauto using node_at_mono, identical_files_mono, dirs_ok_mono.
Qed.

(** In the reliable environment the calls do what the map says. *)
Ltac calm := unfold log, sys; cbn beta iota delta [fault copy2_breaks reliable].

Ltac calm_in H := unfold log, sys in H; cbn beta iota delta [fault copy2_breaks reliable] in H.

Section Primitives.

Variable w : World.

Lemma log_eq line s : log line s = Ok tt s.
Proof. reflexivity. Qed.

Lemma path_exists_eq p s : path_exists p s = Ok (exists_in (fs s) p) s.
Proof. reflexivity. Qed.

Lemma files_identical_eq a b s :
  _files_identical w a b s = Ok (identical w (fs s) a b) s.
Proof.
  unfold _files_identical, identical, try_except, bind, stat_size, _calculate_md5, ret.
  calm.
  destruct (node_at (fs s) a) as [[ca|]|] eqn:Ea; [| |reflexivity].
  - destruct (node_at (fs s) b) as [[cb|]|] eqn:Eb; [| |reflexivity].
    + destruct (length ca =? length cb); simpl; [rewrite Ea, Eb|]; reflexivity.
    + destruct (length ca =? dir_st_size w); simpl; [rewrite Ea, Eb|]; reflexivity.
  - destruct (node_at (fs s) b) as [[cb|]|] eqn:Eb; [| |reflexivity].
    + destruct (dir_st_size w =? length cb); simpl; [rewrite Ea|]; reflexivity.
    + destruct (dir_st_size w =? dir_st_size w); simpl; [rewrite Ea|]; reflexivity.
Qed.

Lemma identical_true f a b : identical w f a b = true <-> identical_files w f a b.
Proof.
  unfold identical, identical_files. split.
  - destruct (node_at f a) as [[ca|]|]; try discriminate.
    destruct (node_at f b) as [[cb|]|]; try discriminate.
    intros H. apply andb_true_iff in H as [H1 H2].
    apply Nat.eqb_eq in H1. apply bool_decide_eq_true in H2.
    exists ca, cb. auto.
  - intros (ca & cb & -> & -> & H1 & H2).
    apply andb_true_iff. split; [apply Nat.eqb_eq, H1|apply bool_decide_eq_true, H2].
Qed.

Lemma identical_exists f a b : identical w f a b = true -> exists_in f b = true.
Proof.
  intros H. apply identical_true in H as (ca & cb & _ & Hb & _).
  unfold exists_in. apply bool_decide_eq_true. rewrite Hb. eauto.
Qed.

Lemma exists_in_false f p : exists_in f p = false <-> node_at f p = None.
Proof.
  unfold exists_in. rewrite bool_decide_eq_false. split.
  - intros H. destruct (node_at f p); [exfalso; eauto|reflexivity].
  - intros -> [x Hx]. discriminate.
Qed.

Lemma exists_in_eq f p :
  exists_in f p = match node_at f p with Some _ => true | None => false end.
Proof.
  destruct (node_at f p) eqn:E.
  - unfold exists_in. rewrite E. apply bool_decide_eq_true. eauto.
  - apply exists_in_false, E.
Qed.

(** *** mkdir *)

Lemma mkdir_from_spec rest : forall pre s,
  post (mkdir_from pre rest) s
    (fun _ s' => grows s s' /\
       forall k, 1 <= k <= length rest -> node_at (fs s') (pre ++ take k rest) = Some Dir)
    (fun _ s' => grows s s').
Proof.
  induction rest as [|c rest IH]; intros pre s.
  - split; [apply grows_refl|]. simpl. intros k Hk. lia.
  - unfold post. simpl. calm.
    destruct (node_at (fs s) (pre ++ [c])) as [[cont|]|] eqn:E.
    + apply grows_refl.
    + specialize (IH (pre ++ [c]) s). unfold post in IH.
      destruct (mkdir_from (pre ++ [c]) rest s) as [[] s'|e s']; [|exact IH].
      destruct IH as [Hg IH]. split; [exact Hg|].
      intros k Hk. destruct k as [|k]; [lia|]. simpl.
      destruct k as [|k].
      * rewrite take_0. eapply node_at_mono; [apply Hg|exact E].
      * replace (pre ++ c :: take (S k) rest) with ((pre ++ [c]) ++ take (S k) rest)
          by (rewrite <- app_assoc; reflexivity).
        apply IH. simpl in Hk. lia.
    + set (s1 := {| fs := <[pre ++ [c] := Dir]> (fs s); stats := stats s; results := results s |}).
      assert (Hg1 : grows s s1).
      { split; [|split; reflexivity]. simpl. apply node_at_None_insert, E. }
      assert (Hd1 : node_at (fs s1) (pre ++ [c]) = Some Dir).
      { simpl. apply node_at_insert_eq. destruct pre; discriminate. }
      specialize (IH (pre ++ [c]) s1). unfold post in IH.
      destruct (mkdir_from (pre ++ [c]) rest s1) as [[] s'|e s'].
      * destruct IH as [Hg IH]. split; [eapply grows_trans; eassumption|].
        intros k Hk. destruct k as [|k]; [lia|]. simpl.
        destruct k as [|k].
        -- rewrite take_0. eapply node_at_mono; [apply Hg|exact Hd1].
        -- replace (pre ++ c :: take (S k) rest) with ((pre ++ [c]) ++ take (S k) rest)
             by (rewrite <- app_assoc; reflexivity).
           apply IH. simpl in Hk. lia.
      * eapply grows_trans; eassumption.
Qed.

Lemma mkdir_p_spec p s :
  post (mkdir_p p) s (fun _ s' => grows s s' /\ dirs_ok (fs s') p) (fun _ s' => grows s s').
Proof.
  unfold mkdir_p. eapply post_conseq; [apply mkdir_from_spec| |auto].
  intros [] s' [Hg H]. split; [exact Hg|].
  intros k Hk. destruct k as [|k]; [rewrite take_0; reflexivity|].
  apply (H (S k)). lia.
Qed.

Lemma mkdir_from_noop rest : forall pre s,
  (forall k, 1 <= k <= length rest -> node_at (fs s) (pre ++ take k rest) = Some Dir) ->
  mkdir_from pre rest s = Ok tt s.
Proof.
  induction rest as [|c rest IH]; intros pre s H; [reflexivity|].
  assert (H1 := H 1 ltac:(simpl; lia)). simpl in H1. rewrite take_0 in H1.
  simpl. rewrite H1. apply IH.
  intros k Hk. rewrite <- app_assoc. apply (H (S k)). simpl. lia.
Qed.

Lemma mkdir_p_noop p s : dirs_ok (fs s) p -> mkdir_p p s = Ok tt s.
Proof. intros H. apply mkdir_from_noop. intros k Hk. apply H. lia. Qed.

End Primitives.

(** ** The collision loop and the planner *)

Section Loop.

Variables (target_dir : path) (stem suffix name : str).

Lemma collision_loop_unfold fuel counter tp s :
  collision_loop fuel target_dir stem suffix name counter tp s =
  if exists_in (fs s) tp then
    if 100 <? counter + 1 then Raise (CollisionExhausted name) s
    else
      match fuel with
      | O => Raise (CollisionExhausted name) s
      | S fuel' =>
        collision_loop fuel' target_dir stem suffix name (counter + 1)
          (numbered target_dir stem suffix counter) s
      end
  else Ok tp s.
Proof.
  destruct fuel; simpl; unfold bind; rewrite path_exists_eq;
    destruct (exists_in (fs s) tp); try reflexivity;
    destruct (100 <? counter + 1); reflexivity.
Qed.

(** The number of iterations is bounded by the counter: any two amounts of
    fuel that cover the distance to 100 give the same result. *)
Lemma collision_loop_fuel fuel : forall fuel' counter tp s,
  100 - counter <= fuel -> 100 - counter <= fuel' ->
  collision_loop fuel target_dir stem suffix name counter tp s =
  collision_loop fuel' target_dir stem suffix name counter tp s.
Proof.
  induction fuel as [|fuel IH]; intros fuel' counter tp s H H';
    rewrite (collision_loop_unfold _ counter), (collision_loop_unfold fuel' counter);
    destruct (exists_in (fs s) tp); try reflexivity;
    destruct (Nat.ltb_spec 100 (counter + 1)); try reflexivity; try lia.
  destruct fuel' as [|fuel']; [lia|]. apply IH; lia.
Qed.

(** What the loop returns and when it raises. *)
Lemma collision_loop_inv fuel : forall counter tp s,
  100 - counter <= fuel ->
  match collision_loop fuel target_dir stem suffix name counter tp s with
  | Ok p s' =>
    s' = s /\ exists_in (fs s) p = false /\
    (p = tp \/
     exists n, counter <= n <= 99 /\ p = numbered target_dir stem suffix n /\
       exists_in (fs s) tp = true /\
       forall m, counter <= m < n ->
         exists_in (fs s) (numbered target_dir stem suffix m) = true)
  | Raise e s' =>
    s' = s /\ e = CollisionExhausted name /\ exists_in (fs s) tp = true /\
    forall m, counter <= m <= 99 ->
      exists_in (fs s) (numbered target_dir stem suffix m) = true
  end.
Proof.
  induction fuel as [|fuel IH]; intros counter tp s H;
    rewrite collision_loop_unfold; destruct (exists_in (fs s) tp) eqn:E;
    try (split; [reflexivity|]; split; [exact E|]; left; reflexivity);
    destruct (Nat.ltb_spec 100 (counter + 1)) as [Hc|Hc]; try lia;
    try (split; [reflexivity|]; split; [reflexivity|]; split; [reflexivity|];
         intros m Hm; lia).
  specialize (IH (counter + 1) (numbered target_dir stem suffix counter) s ltac:(lia)).
  destruct (collision_loop fuel target_dir stem suffix name (counter + 1)
              (numbered target_dir stem suffix counter) s) as [p s'|e s'].
  - destruct IH as (-> & Hfree & Hp). split; [reflexivity|]. split; [exact Hfree|].
    right. destruct Hp as [->|(n & Hn & -> & Hex & Hall)].
    + exists counter. repeat split; try lia; try exact Hfree.
    + exists n. repeat split; try lia. intros m Hm.
      destruct (decide (m = counter)) as [->|]; [exact Hex|]. apply Hall. lia.
  - destruct IH as (-> & -> & Hex & Hall). repeat split.
    intros m Hm. destruct (decide (m = counter)) as [->|]; [exact Hex|]. apply Hall. lia.
Qed.

End Loop.

Section Planner.

Variable w : World.
Variable target_base_dir : path.

Lemma generate_target_path_unfold src md s :
  generate_target_path w target_base_dir src md s =
  match mkdir_p (target_dir_of target_base_dir md) s with
  | Raise e s1 => Raise e s1
  | Ok _ s1 =>
    let cand := candidate_path w target_base_dir src md in
    if exists_in (fs s1) cand && negb (identical w (fs s1) src cand) then
      collision_loop 100 (target_dir_of target_base_dir md)
        (name_stem (target_filename w src md)) (name_suffix (target_filename w src md))
        (target_filename w src md) 1 cand s1
    else Ok cand s1
  end.
Proof.
  unfold generate_target_path, candidate_path. unfold bind at 1.
  destruct (mkdir_p (target_dir_of target_base_dir md) s) as [[] s1|e s1]; [|reflexivity].
  unfold bind at 1. rewrite path_exists_eq.
  destruct (exists_in (fs s1) _) eqn:E; unfold bind.
  - rewrite files_identical_eq. destruct (identical w (fs s1) src _); reflexivity.
  - reflexivity.
Qed.

Lemma generate_target_path_spec src md s :
  post (generate_target_path w target_base_dir src md) s
    (fun t s' => grows s s' /\ dirs_ok (fs s') (target_dir_of target_base_dir md) /\
       (exists_in (fs s') t = false \/ identical w (fs s') src t = true))
    (fun _ s' => grows s s').
Proof.
  unfold post. rewrite generate_target_path_unfold.
  pose proof (mkdir_p_spec (target_dir_of target_base_dir md) s) as Hm. unfold post in Hm.
  destruct (mkdir_p (target_dir_of target_base_dir md) s) as [[] s1|e s1]; [|exact Hm].
  destruct Hm as [Hg Hd]. cbv zeta.
  destruct (exists_in (fs s1) _) eqn:Ex; cbn [andb negb].
  - destruct (identical w (fs s1) src _) eqn:Ei; cbn [andb negb].
    + repeat split; try apply Hg; auto.
    + match goal with |- context [collision_loop ?f ?a ?b ?c ?d ?e ?g ?h] =>
        pose proof (collision_loop_inv a b c d f e g h ltac:(lia)) as Hl;
        destruct (collision_loop f a b c d e g h) as [p s'|e' s'] end.
      * destruct Hl as (-> & Hfree & _). repeat split; try apply Hg; auto.
      * destruct Hl as (-> & _). exact Hg.
  - repeat split; try apply Hg; auto.
Qed.

End Planner.

(** ** One file of the batch *)

Section CopyOne.

Variable w : World.
Variable target_base_dir : path.

Lemma extract_metadata_eq p s :
  extract_metadata w p s =
  Ok (metadata_of w p)
     {| fs := fs s; stats := meta_update w p (stats s); results := results s |}.
Proof.
  destruct s as [f t rs].
  unfold extract_metadata, metadata_of, meta_update, try_except, bind, raise, ret,
    update_stats.
  destruct (MutagenFile w p); reflexivity.
Qed.

Lemma copy2_free src dst s :
  node_at (fs s) dst = None ->
  post (copy2 w src dst) s
    (fun _ s' => exists c, node_at (fs s) src = Some (File c) /\
       s' = {| fs := <[dst := File c]> (fs s); stats := stats s; results := results s |})
    (fun _ s' => s' = s).
Proof.
  intros Hdst. unfold post, copy2.
  destruct (copy2_fails w src dst); [reflexivity|].
  destruct (node_at (fs s) src) as [[c|]|] eqn:Es; try reflexivity.
  rewrite Hdst. cbv zeta. destruct (bool_decide (dst = src)); [reflexivity|].
  rewrite Hdst.
  destruct (node_at (fs s) (path_parent dst)) as [[?|]|]; try reflexivity.
  exists c. split; reflexivity.
Qed.

Lemma copy_one_spec src s :
  exists s' r,
    copy_one w target_base_dir src s = Ok tt s' /\
    fs s ⊆ fs s' /\
    results s' = results s ++ [r] /\
    source_path r = src /\
    stats s' = item_update w (stats s) r /\
    record_ok w target_base_dir (fs s') r.
Proof.
  unfold copy_one, try_except. unfold bind at 1. rewrite extract_metadata_eq.
  set (s1 := {| fs := fs s; stats := meta_update w src (stats s); results := results s |}).
  set (md := metadata_of w src).
  pose proof (generate_target_path_spec w target_base_dir src md s1) as Hg.
  unfold post in Hg. unfold bind at 1.
  destruct (generate_target_path w target_base_dir src md s1) as [t s2|e s2].
  2:{ destruct Hg as (Hfs & Hst & Hrs).
      eexists _, (failed_record src e). split; [reflexivity|].
      simpl. repeat split; auto.
      - rewrite Hrs. reflexivity.
      - unfold item_update, outcome_update. simpl. rewrite Hst. reflexivity. }
  destruct Hg as ((Hfs & Hst & Hrs) & Hdirs & Hcase).
  unfold bind at 1. rewrite path_exists_eq.
  destruct (exists_in (fs s2) t) eqn:Ex.
  - (* the target exists: it is identical to the source, the item is skipped *)
    destruct Hcase as [Hcase|Hid]; [discriminate|].
    unfold bind at 1. rewrite files_identical_eq, Hid. cbn [andb].
    pose proof Hid as Hid'. apply identical_true in Hid' as (cs & c & Hs & Ht & Hlen & Hmd).
    unfold bind, update_stats, ret, stat_size, _calculate_md5, append_result. calm.
    repeat (cbn beta iota delta [fs stats results]; rewrite ?Ht).
    eexists _, _. split; [reflexivity|]. cbn [fs stats results].
    split; [exact Hfs|]. split; [rewrite Hrs; reflexivity|]. split; [reflexivity|].
    split.
    + unfold item_update, outcome_update. cbn [status source_path]. rewrite Hst. reflexivity.
    + unfold record_ok. cbn [status metadata error target_path filename md5 size_bytes source_path].
      repeat split. exists t, c. repeat split; auto.
      exists cs, c. auto.
  - (* the target is free: the file is copied *)
    unfold bind at 1. unfold ret at 1. cbn [andb].
    apply exists_in_false in Ex.
    pose proof (copy2_free src t s2 Ex) as Hc. unfold post in Hc.
    unfold bind at 1. unfold bind at 1.
    destruct (copy2 w src t s2) as [[] s3|e s3].
    2:{ subst s3. eexists _, (failed_record src e). split; [reflexivity|].
        simpl. repeat split; auto.
        - rewrite Hrs. reflexivity.
        - unfold item_update, outcome_update. simpl. rewrite Hst. reflexivity. }
    destruct Hc as (c & Hs & ->).
    assert (Hne : t <> src) by (intros ->; congruence).
    assert (Ht0 : t <> []) by (intros ->; discriminate).
    unfold bind, update_stats, ret, stat_size, _calculate_md5, append_result. calm.
    repeat (cbn beta iota delta [fs stats results];
            rewrite ?(node_at_insert_eq (fs s2) t (File c) Ht0)).
    eexists _, _. split; [reflexivity|]. cbn [fs stats results].
    assert (Hsub : fs s2 ⊆ <[t := File c]> (fs s2)) by (apply node_at_None_insert, Ex).
    split; [etrans; [exact Hfs|exact Hsub]|].
    split; [rewrite Hrs; reflexivity|]. split; [reflexivity|].
    split.
    + unfold item_update, outcome_update. cbn [status source_path size_bytes].
      rewrite Hst. reflexivity.
    + unfold record_ok. cbn [status metadata error target_path filename md5 size_bytes source_path].
      repeat split. exists t, c. repeat split; auto.
      * apply node_at_insert_eq, Ht0.
      * exists c, c. repeat split; auto.
        -- rewrite node_at_insert_ne by exact Hne. exact Hs.
        -- apply node_at_insert_eq, Ht0.
      * eapply dirs_ok_mono; [exact Hsub|exact Hdirs].
Qed.

End CopyOne.

(** ** The batch *)

Section Batch.

Variable w : World.
Variable target_base_dir : path.

Lemma copy_loop_spec l : forall s,
  exists s' rs,
    copy_loop w target_base_dir l s = Ok tt s' /\
    fs s ⊆ fs s' /\
    results s' = results s ++ rs /\
    map source_path rs = l /\
    stats s' = fold_left (item_update w) rs (stats s) /\
    Forall (record_ok w target_base_dir (fs s')) rs.
Proof.
  induction l as [|src l IH]; intros s.
  - exists s, []. simpl. rewrite app_nil_r. repeat split; auto.
  - destruct (copy_one_spec w target_base_dir src s)
      as (s1 & r & H1 & Hfs1 & Hrs1 & Hsrc & Hst1 & Hok1).
    destruct (IH s1) as (s' & rs & H2 & Hfs2 & Hrs2 & Hmap & Hst2 & Hok2).
    exists s', (r :: rs). split.
    { simpl. unfold bind. rewrite H1. exact H2. }
    split; [etrans; eassumption|].
    split; [rewrite Hrs2, Hrs1, <- app_assoc; reflexivity|].
    split; [simpl; congruence|].
    split; [simpl; rewrite Hst2, Hst1; reflexivity|].
    constructor; [|exact Hok2]. eapply record_ok_mono; eassumption.
Qed.

(** *** The counters after a batch *)

Lemma fold_item_update_parse rs : forall t,
  total_entries (fold_left (item_update w) rs t) = total_entries t /\
  valid_files (fold_left (item_update w) rs t) = valid_files t /\
  missing_files (fold_left (item_update w) rs t) = missing_files t.
Proof.
  induction rs as [|r rs IH]; intros t; [auto|].
  simpl. destruct (IH (item_update w t r)) as (-> & -> & ->).
  unfold item_update, outcome_update, meta_update.
  destruct (status r), (MutagenFile w (source_path r)); auto.
Qed.

Lemma count_status_cons st r rs :
  count_status st (r :: rs) =
  (if is_status (status r) st then 1 else 0) + count_status st rs.
Proof.
  unfold count_status. rewrite filter_cons.
  destruct (is_status (status r) st); case_decide; try discriminate; try congruence;
    reflexivity.
Qed.

Lemma fold_item_update_copy rs : forall t,
  copied_success (fold_left (item_update w) rs t) = copied_success t + count_status Success rs /\
  copied_skipped (fold_left (item_update w) rs t) = copied_skipped t + count_status Skipped rs /\
  copied_failed (fold_left (item_update w) rs t) = copied_failed t + count_status Failed rs /\
  total_size (fold_left (item_update w) rs t) = total_size t + copied_bytes rs.
Proof.
  induction rs as [|r rs IH]; intros t.
  - unfold count_status. simpl. repeat split; lia.
  - simpl fold_left. destruct (IH (item_update w t r)) as (-> & -> & -> & ->).
    rewrite !count_status_cons. simpl copied_bytes.
    unfold item_update, outcome_update, meta_update.
    destruct (status r), (MutagenFile w (source_path r)); simpl; repeat split; lia.
Qed.

Lemma fold_item_update_meta rs : forall t,
  metadata_read_success (fold_left (item_update w) rs t)
  + metadata_read_failed (fold_left (item_update w) rs t)
  + count_unrecognized w (map source_path rs)
  = metadata_read_success t + metadata_read_failed t + length rs.
Proof.
  induction rs as [|r rs IH]; intros t.
  - unfold count_unrecognized. simpl. lia.
  - simpl fold_left. unfold count_unrecognized in *. simpl map. rewrite filter_cons.
    specialize (IH (item_update w t r)).
    unfold item_update, outcome_update, meta_update in *.
    destruct (MutagenFile w (source_path r)) eqn:E; cbn [is_unrecognized] in *;
      case_decide; try discriminate; try congruence;
      destruct (status r); simpl in *; lia.
Qed.


End Batch.

(** ** The parser and the run *)

Section Parser.

Variable w : World.

Lemma resolve_path_eq line base f t rs :
  _resolve_path w line base {| fs := f; stats := t; results := rs |} =
  Ok (resolved w f base line)
     {| fs := f;
        stats := if names_missing w f base line then add_missing_files 1 t else t;
        results := rs |}.
Proof.
  unfold _resolve_path, resolved, names_missing, try_except, bind, raise, ret,
    update_stats.
  destruct (locate w line base) as [p|]; [|reflexivity].
  rewrite path_exists_eq, exists_in_eq. unfold is_file. calm. cbn [fs stats results].
  destruct (node_at f p) as [[c|]|] eqn:E; cbn [fs]; rewrite ?E; reflexivity.
Qed.

Lemma parse_line_eq dir acc raw f t rs :
  parse_line w dir acc raw {| fs := f; stats := t; results := rs |} =
  Ok (match line_path w f dir raw with
      | Some p => acc ++ [p]
      | None => acc
      end)
     {| fs := f; stats := line_stats w f dir t raw; results := rs |}.
Proof.
  unfold parse_line, line_path, line_stats, counted.
  destruct (is_nil (py_strip raw) || startswith_hash (py_strip raw)); [reflexivity|].
  cbn [negb]. unfold bind, update_stats. cbn [fs stats results].
  rewrite resolve_path_eq.
  destruct (resolved w f dir (py_strip raw)) as [p|] eqn:E; [|reflexivity].
  assert (names_missing w f dir (py_strip raw) = false) as ->; [|reflexivity].
  unfold resolved, names_missing in *.
  destruct (locate w (py_strip raw) dir); [|reflexivity].
  destruct (node_at f l) as [[c|]|]; [reflexivity|discriminate..].
Qed.

Lemma parse_lines_eq dir lines : forall acc f t rs,
  parse_lines w dir acc lines {| fs := f; stats := t; results := rs |} =
  Ok (acc ++ valid_paths w f dir lines)
     {| fs := f; stats := fold_left (line_stats w f dir) lines t; results := rs |}.
Proof.
  induction lines as [|raw lines IH]; intros acc f t rs.
  - simpl. rewrite app_nil_r. reflexivity.
  - simpl. unfold bind. rewrite parse_line_eq, IH.
    destruct (line_path w f dir raw); [rewrite <- app_assoc|]; reflexivity.
Qed.

(** The counters after the lines of a playlist. *)
Lemma fold_line_stats f dir lines : forall t,
  let t' := fold_left (line_stats w f dir) lines t in
  valid_files t' = valid_files t + length (valid_paths w f dir lines) /\
  metadata_read_success t' = metadata_read_success t /\
  metadata_read_failed t' = metadata_read_failed t /\
  copied_success t' = copied_success t /\
  copied_skipped t' = copied_skipped t /\
  copied_failed t' = copied_failed t /\
  total_size t' = total_size t.
Proof.
  induction lines as [|raw lines IH]; intros t; cbv zeta.
  - simpl. repeat split; lia.
  - simpl fold_left. destruct (IH (line_stats w f dir t raw)) as (-> & -> & -> & -> & -> & -> & ->).
    simpl valid_paths. unfold line_stats, line_path.
    destruct (counted raw); [|simpl; repeat split; lia].
    destruct (resolved w f dir (py_strip raw)); [simpl; repeat split; lia|].
    destruct (names_missing w f dir (py_strip raw)); simpl; repeat split; lia.
Qed.

Variable m3u8_path : path.

Lemma parse_m3u8_eq f t rs :
  parse_m3u8 w m3u8_path {| fs := f; stats := t; results := rs |} =
  match node_at f m3u8_path with
  | Some (File c) =>
    Ok (if snd (decode_lines w c) then []
        else valid_paths w f (path_parent m3u8_path) (fst (decode_lines w c)))
       {| fs := f;
          stats := fold_left (line_stats w f (path_parent m3u8_path))
                     (fst (decode_lines w c)) t;
          results := rs |}
  | _ => Ok [] {| fs := f; stats := t; results := rs |}
  end.
Proof.
  unfold parse_m3u8. unfold bind at 1. rewrite log_eq.
  unfold bind at 1. rewrite path_exists_eq, exists_in_eq.
  cbn [fs]. destruct (node_at f m3u8_path) as [[c|]|] eqn:E; cbn [negb].
  - unfold try_except, bind, open_lines. calm. cbn [fs]. rewrite E.
    rewrite parse_lines_eq. destruct (snd (decode_lines w c)); reflexivity.
  - unfold try_except, bind, open_lines. calm. cbn [fs]. rewrite E. reflexivity.
  - reflexivity.
Qed.

Variable target_base_dir : path.

Lemma run_eq s :
  run w m3u8_path target_base_dir s =
  match parse_m3u8 w m3u8_path s with
  | Ok l s1 =>
    if is_nil l then Ok false s1
    else
      match mkdir_p target_base_dir s1 with
      | Ok _ s2 =>
        match copy_loop w target_base_dir l s2 with
        | Ok _ s3 => Ok true s3
        | Raise _ s3 => Ok false s3
        end
      | Raise _ s2 => Ok false s2
      end
  | Raise _ s1 => Ok false s1
  end.
Proof.
  unfold run, try_except, bind, copy_files, save_results, try_except, bind, ret. calm.
  destruct (parse_m3u8 w m3u8_path s) as [l s1|e s1]; [|reflexivity].
  destruct (is_nil l); [reflexivity|].
  destruct (mkdir_p target_base_dir s1) as [[] s2|e s2]; [|reflexivity].
  destruct (copy_loop w target_base_dir l s2); reflexivity.
Qed.

(** The three ways [run] ends. *)
Lemma run_cases s l s1 :
  parse_m3u8 w m3u8_path s = Ok l s1 ->
  (l = [] /\ run w m3u8_path target_base_dir s = Ok false s1) \/
  (l <> [] /\ exists e s2, mkdir_p target_base_dir s1 = Raise e s2 /\
     run w m3u8_path target_base_dir s = Ok false s2) \/
  (l <> [] /\ exists s2 s3, mkdir_p target_base_dir s1 = Ok tt s2 /\
     copy_loop w target_base_dir l s2 = Ok tt s3 /\
     run w m3u8_path target_base_dir s = Ok true s3).
Proof.
  intros Hp. rewrite run_eq, Hp.
  destruct l as [|p l]; [left; split; reflexivity|].
  right. cbn [is_nil].
  destruct (mkdir_p target_base_dir s1) as [[] s2|e s2] eqn:Em.
  - right. split; [discriminate|].
    destruct (copy_loop_spec w target_base_dir (p :: l) s2) as (s3 & rs & H & _).
    exists s2, s3. rewrite H. auto.
  - left. split; [discriminate|]. exists e, s2. auto.
Qed.

Lemma parse_m3u8_init f :
  exists l s1, parse_m3u8 w m3u8_path (init_state f) = Ok l s1 /\
    ((exists lines, playlist_lines w m3u8_path f = Some lines /\
        l = valid_paths w f (path_parent m3u8_path) lines /\
        s1 = parsed_state w m3u8_path f lines) \/
     (playlist_lines w m3u8_path f = None /\ l = [] /\ fs s1 = f /\
        results s1 = [] /\ no_copies (stats s1))).
Proof.
  unfold init_state. rewrite parse_m3u8_eq. unfold playlist_lines.
  destruct (node_at f m3u8_path) as [[c|]|].
  - eexists _, _. split; [reflexivity|].
    destruct (snd (decode_lines w c)).
    + right.
      pose proof (fold_line_stats f (path_parent m3u8_path) (fst (decode_lines w c))
                    zero_stats) as H.
      cbv zeta in H. destruct H as (_ & _ & _ & H1 & H2 & H3 & H4).
      unfold no_copies. cbn [stats fs results]. rewrite H1, H2, H3, H4. repeat split.
    + left. eexists. repeat split.
  - eexists _, _. split; [reflexivity|]. right. repeat split.
  - eexists _, _. split; [reflexivity|]. right. repeat split.
Qed.

Lemma parsed_state_no_copies f lines : no_copies (stats (parsed_state w m3u8_path f lines)).
Proof.
  pose proof (fold_line_stats f (path_parent m3u8_path) lines zero_stats) as H.
  cbv zeta in H. destruct H as (_ & _ & _ & H1 & H2 & H3 & H4).
  unfold no_copies, parsed_state. cbn [stats]. rewrite H1, H2, H3, H4. repeat split.
Qed.

(** How [run] ends from a fresh importer. *)
Lemma run_init_cases f b s' :
  run w m3u8_path target_base_dir (init_state f) = Ok b s' ->
  (b = true /\ exists lines s2,
     playlist_lines w m3u8_path f = Some lines /\
     valid_paths w f (path_parent m3u8_path) lines <> [] /\
     mkdir_p target_base_dir (parsed_state w m3u8_path f lines) = Ok tt s2 /\
     copy_loop w target_base_dir (valid_paths w f (path_parent m3u8_path) lines) s2
       = Ok tt s') \/
  (b = false /\ results s' = [] /\ no_copies (stats s') /\ f ⊆ fs s' /\
     (playlist_lines w m3u8_path f = None \/
      exists lines, playlist_lines w m3u8_path f = Some lines /\
        (valid_paths w f (path_parent m3u8_path) lines = [] \/
         exists e, mkdir_p target_base_dir (parsed_state w m3u8_path f lines)
                   = Raise e s'))).
Proof.
  intros Hrun.
  destruct (parse_m3u8_init f) as (l & s1 & Hp & Hcase).
  destruct (run_cases _ _ _ Hp)
    as [[Hl H]|[(Hl & e & s2 & Hm & H)|(Hl & s2 & s3 & Hm & Hc & H)]];
    rewrite H in Hrun; injection Hrun as <- <-.
  - right. split; [reflexivity|].
    destruct Hcase as [(lines & Hpl & -> & ->)|(Hpl & _ & Hfs & Hrs & Hnc)].
    + repeat split; try apply parsed_state_no_copies; try reflexivity.
      right. exists lines. auto.
    + rewrite Hfs. repeat split; auto; apply Hnc.
  - right. split; [reflexivity|].
    destruct Hcase as [(lines & Hpl & -> & ->)|(_ & -> & _)]; [|congruence].
    pose proof (mkdir_p_spec target_base_dir (parsed_state w m3u8_path f lines)) as Hmk.
    unfold post in Hmk. rewrite Hm in Hmk. destruct Hmk as (Hfs & Hst & Hrs).
    rewrite Hrs, Hst. repeat split; try apply parsed_state_no_copies; try exact Hfs.
    right. exists lines. split; [exact Hpl|]. right. exists e. exact Hm.
  - left. split; [reflexivity|].
    destruct Hcase as [(lines & Hpl & -> & ->)|(_ & -> & _)]; [|congruence].
    exists lines, s2. auto.
Qed.

(** What a completed run leaves. *)
Lemma run_true_spec f s' :
  run w m3u8_path target_base_dir (init_state f) = Ok true s' ->
  exists lines,
    playlist_lines w m3u8_path f = Some lines /\
    valid_paths w f (path_parent m3u8_path) lines <> [] /\
    f ⊆ fs s' /\
    dirs_ok (fs s') target_base_dir /\
    map source_path (results s') = valid_paths w f (path_parent m3u8_path) lines /\
    stats s' = fold_left (item_update w) (results s')
                 (stats (parsed_state w m3u8_path f lines)) /\
    Forall (record_ok w target_base_dir (fs s')) (results s').
Proof.
  intros Hrun. apply run_init_cases in Hrun as [(_ & lines & s2 & Hpl & Hne & Hm & Hc)|[? _]];
    [|discriminate].
  exists lines. split; [exact Hpl|]. split; [exact Hne|].
  pose proof (mkdir_p_spec target_base_dir (parsed_state w m3u8_path f lines)) as Hmk.
  unfold post in Hmk. rewrite Hm in Hmk. destruct Hmk as ((Hfs & Hst & Hrs) & Hd).
  destruct (copy_loop_spec w target_base_dir
              (valid_paths w f (path_parent m3u8_path) lines) s2)
    as (s3 & rs & Hc' & Hfs' & Hrs' & Hmap & Hst' & Hok).
  rewrite Hc in Hc'. injection Hc' as <-.
  rewrite Hrs in Hrs'. cbn [parsed_state results app] in Hrs'. subst rs.
  split; [etrans; [exact Hfs|exact Hfs']|].
  split; [eapply dirs_ok_mono; eassumption|].
  split; [exact Hmap|]. split; [rewrite Hst', Hst; reflexivity|exact Hok].
Qed.

End Parser.

(** * Main theorems *)

(** sanitize_filename is idempotent and never returns the empty string: it
    replaces each of the eight characters slash, colon, backslash, question
    mark, asterisk, less-than, greater-than and vertical bar by its
    lookalike, strips spaces and dots at both ends, and returns Unknown when
    nothing is left.  None of the eight characters is in the result, which
    neither starts nor ends with a space or a dot. *)
Theorem sanitize_filename_spec (name : str) :
  sanitize_filename (sanitize_filename name) = sanitize_filename name /\
  sanitize_filename name <> [] /\
  sanitize_filename name =
    (if is_nil (strip [32; 46]%N (map lookalike name)) then Unknown
     else strip [32; 46]%N (map lookalike name)) /\
  Forall (fun c => char_in c replaced_chars = false) (sanitize_filename name) /\
  (forall c t, sanitize_filename name = c :: t -> char_in c [32; 46]%N = false) /\
  (forall t c, sanitize_filename name = t ++ [c] -> char_in c [32; 46]%N = false).
Proof.
  split; [apply sanitize_filename_idempotent|].
  split; [apply sanitize_filename_nonempty|].
  split; [apply sanitize_filename_eq|].
  rewrite sanitize_filename_eq. unfold body.
  destruct (strip [32; 46]%N (map lookalike name)) as [|c0 t0] eqn:E; cbn [is_nil].
  - split; [|split].
    + vm_compute. repeat constructor.
    + intros c t [= <- _]. reflexivity.
    + intros t c H. apply (f_equal (@rev N)) in H. rewrite rev_app_distr in H.
      vm_compute in H. injection H as <- _. reflexivity.
  - rewrite <- E. split; [|split].
    + destruct (strip_sublist [32; 46]%N (map lookalike name)) as (a & b & H).
      assert (Hall : Forall (fun c => char_in c replaced_chars = false) (map lookalike name)).
      { apply List.Forall_forall. intros c Hc. apply in_map_iff in Hc as (d & <- & _).
        apply lookalike_not_replaced. }
      rewrite H in Hall at 1.
      apply Forall_app in Hall as [_ Hall]. apply Forall_app in Hall as [Hall _].
      exact Hall.
    + intros c t H. eapply strip_head, H.
    + intros t c H. eapply strip_last, H.
Qed.

(** C6, at the failing input: the table entry of the quotation mark (code
    point 34) is the quotation mark itself, so the name a, quotation mark, b
    is returned unchanged and the quotation mark is not replaced by a
    lookalike. *)
Lemma sanitize_filename_keeps_quote :
  sanitize_filename [97; 34; 98]%N = [97; 34; 98]%N /\
  In (34%N, [34%N]) illegal_chars.
Proof. split; [vm_compute; reflexivity|]. unfold illegal_chars. simpl. tauto. Qed.

(** C10. When metadata.title is absent (None or empty) the file name chosen
    at lines 230-246 is exactly the name of the source file, unsanitized;
    sanitize_filename is applied only where a title is present.  With a free
    candidate path, generate_target_path returns the target directory
    followed by that very name. *)
Theorem target_filename_without_title (w : World) (target_base_dir src : path)
    (md : Metadata) :
  (truthy_str (title md) = false -> target_filename w src md = path_name src) /\
  (truthy_str (title md) = true ->
     exists raw, target_filename w src md = sanitize_filename raw) /\
  (truthy_str (title md) = false ->
     forall s s1,
       mkdir_p (target_dir_of target_base_dir md) s = Ok tt s1 ->
       node_at (fs s1) (target_dir_of target_base_dir md ++ [path_name src]) = None ->
       generate_target_path w target_base_dir src md s =
       Ok (target_dir_of target_base_dir md ++ [path_name src]) s1).
Proof.
  split; [|split].
  - unfold target_filename. intros ->. reflexivity.
  - unfold target_filename. intros ->. eexists. reflexivity.
  - intros Ht s s1 Hm Hfree. rewrite generate_target_path_unfold, Hm. cbv zeta.
    unfold candidate_path, target_filename. rewrite Ht.
    apply exists_in_false in Hfree. rewrite Hfree. reflexivity.
Qed.

(** C9. For a file that mutagen does not recognize, extract_metadata returns
    the all-None record and leaves the state, and so both metadata counters,
    as they are.  After a completed run the two counters and the number of
    unrecognized files add up to valid_files, so the counters alone sum to
    less whenever a processed file is not recognized. *)
Theorem extract_metadata_unrecognized (w : World) (m3u8_path target_base_dir : path) :
  (forall p s, MutagenFile w p = Unrecognized ->
     extract_metadata w p s = Ok empty_metadata s) /\
  (forall f s',
     run w m3u8_path target_base_dir (init_state f) = Ok true s' ->
     metadata_read_success (stats s') + metadata_read_failed (stats s')
     + count_unrecognized w (map source_path (results s'))
     = valid_files (stats s')).
Proof.
  split.
  - intros p s H. unfold extract_metadata, try_except. rewrite H. reflexivity.
  - intros f s' Hrun.
    apply run_true_spec in Hrun as (lines & _ & _ & _ & _ & Hmap & Hst & _).
    pose proof (fold_line_stats w f (path_parent m3u8_path) lines zero_stats) as Hf.
    cbv zeta in Hf. destruct Hf as (Hv & Hms & Hmf & _).
    pose proof (fold_item_update_meta w (results s')
                  (stats (parsed_state w m3u8_path f lines))) as Hmeta.
    destruct (fold_item_update_parse w (results s')
                (stats (parsed_state w m3u8_path f lines))) as (_ & Hvalid & _).
    rewrite <- Hst in Hmeta, Hvalid. rewrite Hmeta, Hvalid.
    unfold parsed_state. cbn [stats]. rewrite Hv, Hms, Hmf, <- Hmap, length_map.
    reflexivity.
Qed.

Lemma record_ok_target w base f r t :
  record_ok w base f r -> target_path r = Some t ->
  exists c, node_at f t = Some (File c) /\ md5 r = Some (md5_hexdigest w c) /\
    size_bytes r = length c.
Proof.
  unfold record_ok. intros H Ht.
  destruct (status r).
  - destruct H as (_ & _ & t' & c & Ht' & _ & Hn & Hm & Hs & _).
    rewrite Ht in Ht'. injection Ht' as <-. eauto.
  - destruct H as (_ & _ & t' & c & Ht' & _ & Hn & Hm & Hs & _).
    rewrite Ht in Ht'. injection Ht' as <-. eauto.
  - destruct H as (Hnone & _). congruence.
Qed.

Section Run.

Variable w : World.
Variables m3u8_path target_base_dir : path.

(** C3. After any run, two records with the same (non-null) target path
    carry the same content hash and the same size: both are the hash and the
    size of the one file that the final file system has at that path. *)
Theorem shared_target_same_content f b s' r1 r2 t :
  run w m3u8_path target_base_dir (init_state f) = Ok b s' ->
  In r1 (results s') -> In r2 (results s') ->
  target_path r1 = Some t -> target_path r2 = Some t ->
  md5 r1 = md5 r2 /\ size_bytes r1 = size_bytes r2 /\
  exists c, node_at (fs s') t = Some (File c) /\
    md5 r1 = Some (md5_hexdigest w c) /\ size_bytes r1 = length c.
Proof.
  intros Hrun H1 H2 Ht1 Ht2.
  destruct b.
  - apply run_true_spec in Hrun as (lines & _ & _ & _ & _ & _ & _ & Hok).
    rewrite List.Forall_forall in Hok.
    destruct (record_ok_target _ _ _ _ _ (Hok _ H1) Ht1) as (c1 & Hn1 & Hm1 & Hs1).
    destruct (record_ok_target _ _ _ _ _ (Hok _ H2) Ht2) as (c2 & Hn2 & Hm2 & Hs2).
    rewrite Hn1 in Hn2. injection Hn2 as <-.
    split; [congruence|]. split; [congruence|]. exists c1. auto.
  - apply run_init_cases in Hrun as [[? _]|(_ & Hrs & _)]; [discriminate|].
    rewrite Hrs in H1. destruct H1.
Qed.





End Run.

Lemma node_at_insert_dir_file (f : FS) p q c :
  node_at f p = None ->
  node_at (<[p := Dir]> f) q = Some (File c) <-> node_at f q = Some (File c).
Proof.
  intros Hp. destruct (decide (p = q)) as [<-|Hne].
  - rewrite node_at_insert_eq by (intros ->; discriminate). rewrite Hp.
    split; discriminate.
  - rewrite node_at_insert_ne by exact Hne. reflexivity.
Qed.

Lemma mkdir_from_ok_iff rest : forall pre s,
  (exists s', mkdir_from pre rest s = Ok tt s') <->
  (forall k c, 1 <= k <= length rest ->
     node_at (fs s) (pre ++ take k rest) <> Some (File c)).
Proof.
  induction rest as [|x rest IH]; intros pre s.
  - simpl. split; [intros _ k c Hk; lia|eauto].
  - simpl mkdir_from. calm.
    destruct (node_at (fs s) (pre ++ [x])) as [[cont|]|] eqn:E.
    + split; [intros [s' H]; discriminate|].
      intros H. exfalso. apply (H 1 cont); [simpl; lia|]. simpl. rewrite take_0. exact E.
    + rewrite IH. split.
      * intros H k c Hk. destruct k as [|k]; [lia|]. simpl.
        destruct k as [|k]; [rewrite take_0, E; discriminate|].
        replace (pre ++ x :: take (S k) rest) with ((pre ++ [x]) ++ take (S k) rest)
          by (rewrite <- app_assoc; reflexivity).
        apply H. simpl in Hk. lia.
      * intros H k c Hk. rewrite <- app_assoc. apply (H (S k) c). simpl. lia.
    + rewrite IH. cbn [fs]. split.
      * intros H k c Hk. destruct k as [|k]; [lia|]. simpl.
        destruct k as [|k]; [rewrite take_0, E; discriminate|].
        replace (pre ++ x :: take (S k) rest) with ((pre ++ [x]) ++ take (S k) rest)
          by (rewrite <- app_assoc; reflexivity).
        intros Hn. apply (H (S k) c); [simpl in Hk; lia|].
        apply node_at_insert_dir_file; assumption.
      * intros H k c Hk Hn. apply node_at_insert_dir_file in Hn; [|exact E].
        rewrite <- app_assoc in Hn. apply (H (S k) c); [simpl; lia|exact Hn].
Qed.

Lemma mkdir_p_ok_iff p s : (exists s', mkdir_p p s = Ok tt s') <-> creatable (fs s) p.
Proof. unfold mkdir_p, creatable. apply mkdir_from_ok_iff. Qed.






(** C1, as it holds of the code.  After the target directory is made: a
    candidate path that is free, or that holds content identical to the
    source, is returned as it is.  Otherwise the numbered paths are tried
    for n = 1, 2, 3, ... with existence alone re-checked at each step, and
    the first free one, for n up to 99, is returned.  CollisionExhausted is
    raised exactly when the candidate holds different content and the paths
    numbered 1 to 99 all exist. *)
Theorem generate_target_path_collisions (w : World) (target_base_dir src : path)
    (md : Metadata) (s s1 : State) :
  mkdir_p (target_dir_of target_base_dir md) s = Ok tt s1 ->
  let dir := target_dir_of target_base_dir md in
  let name := target_filename w src md in
  let cand := dir ++ [name] in
  let slot := numbered dir (name_stem name) (name_suffix name) in
  let occupied := fun p => exists_in (fs s1) p = true in
  let planned := generate_target_path w target_base_dir src md s in
  (exists_in (fs s1) cand = false \/ identical w (fs s1) src cand = true ->
   planned = Ok cand s1) /\
  (occupied cand -> identical w (fs s1) src cand = false ->
   forall n, 1 <= n <= 99 -> (forall m, 1 <= m < n -> occupied (slot m)) ->
     exists_in (fs s1) (slot n) = false ->
     planned = Ok (slot n) s1) /\
  (occupied cand -> identical w (fs s1) src cand = false ->
   (forall m, 1 <= m <= 99 -> occupied (slot m)) ->
   planned = Raise (CollisionExhausted name) s1) /\
  (forall e s', planned = Raise e s' ->
     e = CollisionExhausted name /\ s' = s1 /\ occupied cand /\
     identical w (fs s1) src cand = false /\
     forall m, 1 <= m <= 99 -> occupied (slot m)).
Proof.
  intros Hm. cbv zeta. rewrite generate_target_path_unfold, Hm. cbv zeta.
  unfold candidate_path.
  set (dir := target_dir_of target_base_dir md).
  set (name := target_filename w src md).
  set (cand := dir ++ [name]).
  pose proof (collision_loop_inv dir (name_stem name) (name_suffix name) name 100 1 cand s1
                ltac:(lia)) as Hinv.
  destruct (exists_in (fs s1) cand) eqn:Ex; cbn [andb].
  2:{ repeat split; try discriminate. }
  destruct (identical w (fs s1) src cand) eqn:Ei; cbn [negb].
  { repeat split; try discriminate. }
  destruct (collision_loop 100 dir (name_stem name) (name_suffix name) name 1 cand s1)
    as [p s'|e s'].
  - destruct Hinv as (-> & Hfree & [->|(n' & Hn' & -> & _ & Hall)]); [congruence|].
    split; [intros [?|?]; discriminate|]. split; [|split; [|discriminate]].
    + intros _ _ n Hn Hocc Hfree_n.
      destruct (lt_eq_lt_dec n n') as [[Hlt| ->]|Hgt]; [| reflexivity |].
      * rewrite Hall in Hfree_n by lia. discriminate.
      * rewrite Hocc in Hfree by lia. discriminate.
    + intros _ _ Hocc. rewrite Hocc in Hfree by lia. discriminate.
  - destruct Hinv as (-> & -> & _ & Hall).
    split; [intros [?|?]; discriminate|]. split; [|split].
    + intros _ _ n Hn _ Hfree_n. rewrite Hall in Hfree_n by lia. discriminate.
    + reflexivity.
    + intros e s' [= <- <-]. auto.
Qed.

Section Rerun.

Variable w : World.
Variables m3u8_path target_base_dir : path.

Lemma settled_mono (f f' : FS) src :
  f ⊆ f' -> settled w target_base_dir f src -> settled w target_base_dir f' src.
Proof.
  intros Hsub [Hd Hi]. split; eauto using dirs_ok_mono, identical_files_mono.
Qed.

(** A settled file is skipped, and nothing but the counters and the record
    list changes. *)
Lemma copy_one_settled src s :
  settled w target_base_dir (fs s) src ->
  exists r,
    copy_one w target_base_dir src s =
    Ok tt {| fs := fs s;
             stats := add_copied_skipped 1 (meta_update w src (stats s));
             results := results s ++ [r] |} /\
    status r = Skipped /\ source_path r = src.
Proof.
  intros [Hd Hi].
  pose proof Hi as (cs & c & Hs & Ht & Hlen & Hmd).
  apply identical_true in Hi.
  assert (Hex : exists_in (fs s) (candidate_path w target_base_dir src (metadata_of w src)) = true).
  { eapply identical_exists, Hi. }
  unfold copy_one, try_except. unfold bind at 1. rewrite extract_metadata_eq.
  unfold bind at 1. rewrite generate_target_path_unfold.
  rewrite mkdir_p_noop by exact Hd. cbv zeta. cbn [fs].
  rewrite Hex, Hi. cbn [andb negb].
  unfold bind at 1. rewrite path_exists_eq. cbn [fs]. rewrite Hex.
  unfold bind at 1. rewrite files_identical_eq. cbn [fs]. rewrite Hi. cbn [andb].
  unfold bind, update_stats, ret, stat_size, _calculate_md5, append_result. calm.
  repeat (cbn beta iota delta [fs stats results]; rewrite ?Ht).
  eexists. split; [reflexivity|]. split; reflexivity.
Qed.

Lemma copy_loop_settled l : forall s,
  Forall (settled w target_base_dir (fs s)) l ->
  exists s' rs,
    copy_loop w target_base_dir l s = Ok tt s' /\
    fs s' = fs s /\
    results s' = results s ++ rs /\
    Forall (fun r => status r = Skipped) rs /\
    map source_path rs = l /\
    total_size (stats s') = total_size (stats s).
Proof.
  induction l as [|src l IH]; intros s Hall.
  - exists s, []. rewrite app_nil_r. repeat split; auto.
  - apply Forall_cons in Hall as [Hsrc Hall].
    destruct (copy_one_settled src s Hsrc) as (r & H1 & Hst & Hsp).
    set (s1 := {| fs := fs s;
                  stats := add_copied_skipped 1 (meta_update w src (stats s));
                  results := results s ++ [r] |}) in *.
    destruct (IH s1 Hall) as (s' & rs & H2 & Hfs & Hrs & Hsk & Hmap & Hts).
    exists s', (r :: rs). split; [simpl; unfold bind; rewrite H1; exact H2|].
    split; [exact Hfs|].
    split; [rewrite Hrs; subst s1; cbn [results]; rewrite <- app_assoc; reflexivity|].
    split; [constructor; assumption|]. split; [simpl; congruence|].
    rewrite Hts. subst s1. cbn [stats]. unfold meta_update.
    destruct (MutagenFile w src); reflexivity.
Qed.

Lemma valid_paths_ext (f f' : FS) dir lines :
  (forall raw, In raw lines -> line_path w f' dir raw = line_path w f dir raw) ->
  valid_paths w f' dir lines = valid_paths w f dir lines.
Proof.
  induction lines as [|raw lines IH]; intros H; [reflexivity|].
  simpl. rewrite (H raw) by (left; reflexivity).
  rewrite IH by (intros r Hr; apply H; right; exact Hr). reflexivity.
Qed.

Lemma line_path_stable (f f' : FS) dir raw :
  f ⊆ f' ->
  (counted raw = true -> forall p, locate w (py_strip raw) dir = Some p ->
     is_file_in f' p = true -> is_file_in f p = true) ->
  line_path w f' dir raw = line_path w f dir raw.
Proof.
  intros Hsub H. unfold line_path, resolved.
  destruct (counted raw); [|reflexivity].
  destruct (locate w (py_strip raw) dir) as [p|]; [|reflexivity].
  specialize (H eq_refl p eq_refl). unfold is_file_in in H.
  destruct (node_at f p) as [[c|]|] eqn:E.
  - rewrite (node_at_mono _ _ _ _ Hsub E). reflexivity.
  - rewrite (node_at_mono _ _ _ _ Hsub E). reflexivity.
  - destruct (node_at f' p) as [[c|]|]; [|reflexivity..].
    specialize (H eq_refl). discriminate.
Qed.

(** C2, as it holds of the code.  If the first run returns True, none of
    its records is failed, every record has the candidate path (without a
    number) as its target, and no counted playlist entry that was missing
    before the first run names a regular file after it, then the second run
    on the file system left by the first returns True, yields only skipped
    records for the same files, counts zero bytes and leaves the file system
    as it is. *)
Theorem rerun_skips_everything (f : FS) (s1 s2 : State) (b2 : bool) :
  run w m3u8_path target_base_dir (init_state f) = Ok true s1 ->
  (forall r, In r (results s1) ->
     status r <> Failed /\
     exists md, metadata r = Some md /\
       target_path r = Some (candidate_path w target_base_dir (source_path r) md)) ->
  (forall lines raw p,
     playlist_lines w m3u8_path f = Some lines -> In raw lines ->
     counted raw = true ->
     locate w (py_strip raw) (path_parent m3u8_path) = Some p ->
     is_file_in (fs s1) p = true -> is_file_in f p = true) ->
  run w m3u8_path target_base_dir (init_state (fs s1)) = Ok b2 s2 ->
  b2 = true /\
  Forall (fun r => status r = Skipped) (results s2) /\
  total_size (stats s2) = 0 /\
  fs s2 = fs s1 /\
  map source_path (results s2) = map source_path (results s1).
Proof.
  intros Hrun1 Hplain Hstable Hrun2.
  apply run_true_spec in Hrun1 as (lines & Hpl & Hne & Hsub & Hdbase & Hmap & _ & Hok).
  (* the second run reads the same playlist and resolves the same files *)
  assert (Hpl2 : playlist_lines w m3u8_path (fs s1) = Some lines).
  { unfold playlist_lines in *.
    destruct (node_at f m3u8_path) as [[c|]|] eqn:E; try discriminate.
    rewrite (node_at_mono _ _ _ _ Hsub E). exact Hpl. }
  assert (Hvp : valid_paths w (fs s1) (path_parent m3u8_path) lines
                = valid_paths w f (path_parent m3u8_path) lines).
  { apply valid_paths_ext. intros raw Hraw. apply line_path_stable; [exact Hsub|].
    intros Hc p Hp. apply (Hstable lines raw p Hpl Hraw Hc Hp). }
  (* every file of the batch is settled in the state the first run left *)
  assert (Hset : Forall (settled w target_base_dir (fs s1))
                   (valid_paths w f (path_parent m3u8_path) lines)).
  { rewrite <- Hmap. apply List.Forall_forall. intros src Hsrc.
    apply in_map_iff in Hsrc as (r & <- & Hr).
    rewrite List.Forall_forall in Hok. specialize (Hok r Hr).
    destruct (Hplain r Hr) as (Hnf & md & Hmd & Ht).
    unfold record_ok in Hok.
    destruct (status r); [| |congruence];
      destruct Hok as (Hmd' & _ & t & c & Ht' & _ & _ & _ & _ & Hi & Hd);
      rewrite Hmd in Hmd'; injection Hmd' as ->;
      rewrite Ht in Ht'; injection Ht' as <-; split; assumption. }
  apply run_init_cases in Hrun2
    as [(-> & lines2 & s3 & Hpl3 & _ & Hm & Hc)|(-> & _ & _ & _ & Hwhy)].
  - rewrite Hpl2 in Hpl3. injection Hpl3 as <-.
    rewrite mkdir_p_noop in Hm by exact Hdbase. injection Hm as <-.
    rewrite Hvp in Hc.
    destruct (copy_loop_settled _ (parsed_state w m3u8_path (fs s1) lines) Hset)
      as (s' & rs & Hc' & Hfs & Hrs & Hsk & Hmap' & Hts).
    rewrite Hc in Hc'. injection Hc' as <-.
    cbn [parsed_state results app] in Hrs. subst rs.
    split; [reflexivity|]. split; [exact Hsk|].
    split; [rewrite Hts; apply (parsed_state_no_copies w m3u8_path (fs s1) lines)|].
    split; [exact Hfs|]. congruence.
  - exfalso. destruct Hwhy as [Hnone|(lines' & Hpl' & [Hnil|[e Hm]])].
    + congruence.
    + rewrite Hpl2 in Hpl'. injection Hpl' as <-. rewrite Hvp in Hnil. contradiction.
    + rewrite Hpl2 in Hpl'. injection Hpl' as <-.
      rewrite mkdir_p_noop in Hm by exact Hdbase. discriminate.
Qed.

End Rerun.

(** Each file of a batch yields exactly one record, in the order of the
    batch and with the file as its source; copy_files leaves its loop without
    raising, and the file system only gains entries. *)
Theorem one_record_per_file (w : World) (target_base_dir : path)
    (file_paths : list path) (s : State) :
  exists s' rs,
    copy_loop w target_base_dir file_paths s = Ok tt s' /\
    results s' = results s ++ rs /\
    map source_path rs = file_paths /\
    length rs = length file_paths /\
    fs s ⊆ fs s'.
Proof.
  destruct (copy_loop_spec w target_base_dir file_paths s)
    as (s' & rs & Hrun & Hfs & Hrs & Hmap & _).
  exists s', rs. repeat split; try assumption.
  rewrite <- Hmap, length_map. reflexivity.
Qed.

(** * Further properties *)

(** ** What a step may change *)


Lemma dirs_added_refl d f : dirs_added d f f.
Proof. intros p. left. reflexivity. Qed.

Lemma dirs_added_trans d f1 f2 f3 :
  dirs_added d f1 f2 -> dirs_added d f2 f3 -> dirs_added d f1 f3.
Proof.
  intros H1 H2 p. destruct (H2 p) as [E2|(N2 & D2 & P2)].
  - rewrite E2. apply H1.
  - destruct (H1 p) as [E1|(N1 & D1 & P1)].
    + right. rewrite <- E1. auto.
    + congruence.
Qed.

Lemma dirs_added_weaken d d' f f' :
  d `prefix_of` d' -> dirs_added d f f' -> dirs_added d' f f'.
Proof.
  intros Hd H p. destruct (H p) as [E|(N & D & P)]; [left; exact E|].
  right. repeat split; auto. etrans; eassumption.
Qed.

Section Frames.

Variable w : World.
Variable target_base_dir : path.

Lemma mkdir_from_frame rest : forall pre s,
  post (mkdir_from pre rest) s
    (fun _ s' => dirs_added (pre ++ rest) (fs s) (fs s'))
    (fun _ s' => dirs_added (pre ++ rest) (fs s) (fs s')).
Proof.
  induction rest as [|c rest IH]; intros pre s.
  - apply dirs_added_refl.
  - unfold post. simpl. calm.
    replace (pre ++ c :: rest) with ((pre ++ [c]) ++ rest)
      by (rewrite <- app_assoc; reflexivity).
    destruct (node_at (fs s) (pre ++ [c])) as [[cont|]|] eqn:E.
    + apply dirs_added_refl.
    + specialize (IH (pre ++ [c]) s). unfold post in IH.
      destruct (mkdir_from (pre ++ [c]) rest s) as [[] s'|e s']; exact IH.
    + set (s1 := {| fs := <[pre ++ [c] := Dir]> (fs s); stats := stats s;
                    results := results s |}).
      assert (H1 : dirs_added ((pre ++ [c]) ++ rest) (fs s) (fs s1)).
      { intros p. destruct (decide (pre ++ [c] = p)) as [<-|Hne].
        - right. split; [exact E|]. split.
          + simpl. apply node_at_insert_eq. destruct pre; discriminate.
          + apply prefix_app_r. reflexivity.
        - left. simpl. apply node_at_insert_ne, Hne. }
      specialize (IH (pre ++ [c]) s1). unfold post in IH.
      destruct (mkdir_from (pre ++ [c]) rest s1) as [[] s'|e s'];
        eapply dirs_added_trans; eassumption.
Qed.

Lemma mkdir_p_frame p s :
  post (mkdir_p p) s (fun _ s' => dirs_added p (fs s) (fs s'))
    (fun _ s' => dirs_added p (fs s) (fs s')).
Proof. apply (mkdir_from_frame p [] s). Qed.

(** What [mkdir] raises. *)
Lemma mkdir_from_raises rest : forall pre s e s',
  mkdir_from pre rest s = Raise e s' ->
  exists p, e = FileExistsError p \/ e = NotADirectoryError p.
Proof.
  induction rest as [|c rest IH]; intros pre s e s'; simpl; [discriminate|]. calm.
  destruct (node_at (fs s) (pre ++ [c])) as [[cont|]|].
  - intros [= <- _]. exists (pre ++ [c]). destruct (is_nil rest); auto.
  - apply IH.
  - apply IH.
Qed.

Lemma generate_target_path_frame src md s :
  let dir := target_dir_of target_base_dir md in
  let name := target_filename w src md in
  post (generate_target_path w target_base_dir src md) s
    (fun t s' => dirs_added dir (fs s) (fs s') /\
       (t = dir ++ [name] \/
        exists n, 1 <= n <= 99 /\ t = numbered dir (name_stem name) (name_suffix name) n))
    (fun e s' => dirs_added dir (fs s) (fs s') /\
       ((exists p, e = FileExistsError p \/ e = NotADirectoryError p) \/
        e = CollisionExhausted name)).
Proof.
  cbv zeta. unfold post. rewrite generate_target_path_unfold.
  pose proof (mkdir_p_frame (target_dir_of target_base_dir md) s) as Hm. unfold post in Hm.
  destruct (mkdir_p (target_dir_of target_base_dir md) s) as [[] s1|e s1] eqn:Em.
  2:{ split; [exact Hm|]. left. eapply mkdir_from_raises, Em. }
  cbv zeta. unfold candidate_path.
  destruct (exists_in (fs s1) _ && negb (identical w (fs s1) src _)); [|auto].
  match goal with |- context [collision_loop ?f ?a ?b ?c ?d ?e ?g ?h] =>
    pose proof (collision_loop_inv a b c d f e g h ltac:(lia)) as Hl;
    destruct (collision_loop f a b c d e g h) as [p s'|e' s'] end.
  - destruct Hl as (-> & _ & [->|(n & Hn & -> & _)]); [auto|].
    split; [exact Hm|]. right. exists n. split; [lia|reflexivity].
  - destruct Hl as (-> & -> & _). auto.
Qed.

Lemma path_parent_app (d : path) (name : str) : path_parent (d ++ [name]) = d.
Proof. unfold path_parent. apply removelast_last. Qed.

Lemma numbered_parent d st su n : path_parent (numbered d st su n) = d.
Proof. unfold numbered. apply path_parent_app. Qed.

(** The four ways the body of the copy loop ends, read off the plan. *)
Lemma copy_one_cases src s :
  let md := metadata_of w src in
  match generate_target_path w target_base_dir src md (after_metadata w src s) with
  | Raise e s2 =>
    copy_one w target_base_dir src s = Ok tt (failed_state src e s2)
  | Ok t s2 =>
    path_parent t = target_dir_of target_base_dir md /\
    match node_at (fs s2) t with
    | Some n =>
      exists c, n = File c /\ identical w (fs s2) src t = true /\
        copy_one w target_base_dir src s =
        Ok tt {| fs := fs s2; stats := add_copied_skipped 1 (stats s2);
                 results := results s2 ++ [done_record w src t Skipped c] |}
    | None =>
      if copy2_fails w src t then
        copy_one w target_base_dir src s = Ok tt (failed_state src (CopyError src t) s2)
      else
        match node_at (fs s2) src with
        | Some (File c) =>
          copy_one w target_base_dir src s =
          Ok tt {| fs := <[t := File c]> (fs s2);
                   stats := add_copied_success 1 (add_total_size (length c) (stats s2));
                   results := results s2 ++ [done_record w src t Success c] |}
        | Some Dir =>
          copy_one w target_base_dir src s = Ok tt (failed_state src (IsADirectoryError src) s2)
        | None =>
          copy_one w target_base_dir src s = Ok tt (failed_state src (FileNotFoundError src) s2)
        end
    end
  end.
Proof.
  cbv zeta. remember (copy_one w target_base_dir src s) as o eqn:Ho.
  unfold copy_one, try_except in Ho. unfold bind at 1 in Ho.
  rewrite extract_metadata_eq in Ho. fold (after_metadata w src s) in Ho.
  set (s1 := after_metadata w src s) in *. set (md := metadata_of w src) in *.
  pose proof (generate_target_path_spec w target_base_dir src md s1) as Hg.
  pose proof (generate_target_path_frame src md s1) as Hf. cbv zeta in Hf.
  unfold post in Hg, Hf. unfold bind at 1 in Ho.
  destruct (generate_target_path w target_base_dir src md s1) as [t s2|e s2]; [|exact Ho].
  destruct Hg as (_ & Hdirs & Hcase). destruct Hf as (_ & Hshape).
  assert (Hpar : path_parent t = target_dir_of target_base_dir md).
  { destruct Hshape as [->|(n & _ & ->)]; [apply path_parent_app|apply numbered_parent]. }
  split; [exact Hpar|].
  unfold bind at 1 in Ho. rewrite path_exists_eq, exists_in_eq in Ho.
  rewrite exists_in_eq in Hcase.
  destruct (node_at (fs s2) t) as [n|] eqn:Et.
  - destruct Hcase as [Hcase|Hid]; [discriminate|].
    pose proof Hid as Hid'. apply identical_true in Hid' as (cs & c & Hs & Ht & Hlen & Hmd).
    rewrite Et in Ht. injection Ht as ->.
    exists c. split; [reflexivity|]. split; [exact Hid|].
    unfold bind at 1 in Ho. rewrite files_identical_eq, Hid in Ho. cbn [andb] in Ho.
    unfold bind, update_stats, ret, stat_size, _calculate_md5, append_result in Ho. calm_in Ho.
    repeat (cbn beta iota delta [fs stats results] in Ho; rewrite ?Et in Ho).
    exact Ho.
  - unfold bind at 1 in Ho. unfold ret at 1 in Ho. cbn [andb] in Ho.
    unfold bind at 1 in Ho. unfold bind at 1 in Ho. unfold copy2 at 1 in Ho.
    destruct (copy2_fails w src t); [exact Ho|].
    destruct (node_at (fs s2) src) as [[c|]|] eqn:Es; try exact Ho.
    rewrite Et in Ho. cbv zeta in Ho.
    assert (Hne : t <> src) by (intros ->; congruence).
    rewrite bool_decide_eq_false_2 in Ho by exact Hne.
    rewrite Et, Hpar in Ho.
    pose proof (Hdirs (length (target_dir_of target_base_dir md)) ltac:(lia)) as Hd.
    rewrite firstn_all in Hd. rewrite Hd in Ho.
    assert (Ht0 : t <> []) by (intros ->; discriminate).
    unfold bind, update_stats, ret, stat_size, _calculate_md5, append_result in Ho. calm_in Ho.
    repeat (cbn beta iota delta [fs stats results] in Ho;
            rewrite ?(node_at_insert_eq (fs s2) t (File c) Ht0) in Ho).
    exact Ho.
Qed.

End Frames.

Lemma dirs_added_file (d : path) (f f' : FS) p c :
  dirs_added d f f' -> node_at f' p = Some (File c) <-> node_at f p = Some (File c).
Proof.
  intros H. destruct (H p) as [E|(N & D & _)].
  - rewrite E. reflexivity.
  - rewrite N, D. split; discriminate.
Qed.

Lemma dirs_added_None (d : path) (f f' : FS) p :
  dirs_added d f f' -> ~ p `prefix_of` d -> node_at f p = None -> node_at f' p = None.
Proof.
  intros H Hp Hn. destruct (H p) as [E|(_ & _ & P)]; [congruence|contradiction].
Qed.

Lemma not_prefix_app_one (d : path) (name : str) : ~ (d ++ [name]) `prefix_of` d.
Proof.
  intros H. apply prefix_length in H. rewrite length_app in H. simpl in H. lia.
Qed.



Section CopyOneCases.

Variable w : World.
Variable target_base_dir : path.





End CopyOneCases.

(** ** One file: copied, skipped or failed *)

Section CopyOneTheorems.

Variable w : World.
Variable target_base_dir : path.

(** The plan for a file whose candidate path is free. *)
Lemma plan_free src md s :
  creatable (fs s) (target_dir_of target_base_dir md) ->
  node_at (fs s) (candidate_path w target_base_dir src md) = None ->
  exists s2,
    generate_target_path w target_base_dir src md s
      = Ok (candidate_path w target_base_dir src md) s2 /\
    grows s s2 /\
    dirs_added (target_dir_of target_base_dir md) (fs s) (fs s2) /\
    dirs_ok (fs s2) (target_dir_of target_base_dir md) /\
    node_at (fs s2) (candidate_path w target_base_dir src md) = None.
Proof.
  intros Hcr Hfree.
  apply mkdir_p_ok_iff in Hcr as [s2 Hm].
  pose proof (mkdir_p_spec (target_dir_of target_base_dir md) s) as Hs.
  pose proof (mkdir_p_frame (target_dir_of target_base_dir md) s) as Hf.
  unfold post in Hs, Hf. rewrite Hm in Hs, Hf. destruct Hs as [Hg Hd].
  assert (Hfree2 : node_at (fs s2) (candidate_path w target_base_dir src md) = None).
  { eapply dirs_added_None; [exact Hf| |exact Hfree]. apply not_prefix_app_one. }
  exists s2. split; [|auto].
  rewrite generate_target_path_unfold, Hm. cbv zeta.
  apply exists_in_false in Hfree2. rewrite Hfree2. reflexivity.
Qed.

(** The plan for a file whose candidate path holds a file of the same size
    and digest. *)
Lemma plan_identical src md s :
  creatable (fs s) (target_dir_of target_base_dir md) ->
  identical_files w (fs s) src (candidate_path w target_base_dir src md) ->
  exists s2,
    generate_target_path w target_base_dir src md s
      = Ok (candidate_path w target_base_dir src md) s2 /\
    grows s s2 /\
    dirs_added (target_dir_of target_base_dir md) (fs s) (fs s2).
Proof.
  intros Hcr Hid.
  apply mkdir_p_ok_iff in Hcr as [s2 Hm].
  pose proof (mkdir_p_spec (target_dir_of target_base_dir md) s) as Hs.
  pose proof (mkdir_p_frame (target_dir_of target_base_dir md) s) as Hf.
  unfold post in Hs, Hf. rewrite Hm in Hs, Hf. destruct Hs as [Hg Hd].
  exists s2. split; [|auto].
  rewrite generate_target_path_unfold, Hm. cbv zeta.
  assert (Hid2 : identical w (fs s2) src (candidate_path w target_base_dir src md) = true).
  { apply identical_true. eapply identical_files_mono; [apply Hg|exact Hid]. }
  rewrite Hid2, andb_false_r. reflexivity.
Qed.

Lemma copy_one_fresh src s c :
  creatable (fs s) (target_dir_of target_base_dir (metadata_of w src)) ->
  node_at (fs s) src = Some (File c) ->
  node_at (fs s) (candidate_path w target_base_dir src (metadata_of w src)) = None ->
  copy2_fails w src (candidate_path w target_base_dir src (metadata_of w src)) = false ->
  exists f',
    copy_one w target_base_dir src s =
    Ok tt {| fs := <[candidate_path w target_base_dir src (metadata_of w src) := File c]> f';
             stats := add_copied_success 1
                        (add_total_size (length c) (meta_update w src (stats s)));
             results := results s ++
               [done_record w src (candidate_path w target_base_dir src (metadata_of w src))
                  Success c] |} /\
    dirs_added (target_dir_of target_base_dir (metadata_of w src)) (fs s) f' /\
    dirs_ok f' (target_dir_of target_base_dir (metadata_of w src)) /\
    node_at f' (candidate_path w target_base_dir src (metadata_of w src)) = None /\
    fs s ⊆ f'.
Proof.
  intros Hcr Hsrc Hfree Hcopy.
  destruct (plan_free src (metadata_of w src) (after_metadata w src s) Hcr Hfree)
    as (s2 & Hplan & (Hsub & Hst & Hrs) & Hda & Hdo & Hfree2).
  pose proof (copy_one_cases w target_base_dir src s) as Hc. cbv zeta in Hc.
  rewrite Hplan in Hc. destruct Hc as [_ Hc].
  rewrite Hfree2, Hcopy in Hc.
  rewrite (node_at_mono _ _ _ _ Hsub Hsrc) in Hc.
  rewrite Hst, Hrs in Hc. exists (fs s2). auto.
Qed.

Lemma copy_one_identical src s cs ct :
  creatable (fs s) (target_dir_of target_base_dir (metadata_of w src)) ->
  node_at (fs s) src = Some (File cs) ->
  node_at (fs s) (candidate_path w target_base_dir src (metadata_of w src)) = Some (File ct) ->
  length cs = length ct ->
  md5_hexdigest w cs = md5_hexdigest w ct ->
  exists f',
    copy_one w target_base_dir src s =
    Ok tt {| fs := f';
             stats := add_copied_skipped 1 (meta_update w src (stats s));
             results := results s ++
               [done_record w src (candidate_path w target_base_dir src (metadata_of w src))
                  Skipped ct] |} /\
    dirs_added (target_dir_of target_base_dir (metadata_of w src)) (fs s) f' /\
    fs s ⊆ f'.
Proof.
  intros Hcr Hsrc Hcand Hlen Hmd.
  assert (Hid : identical_files w (fs s) src
                  (candidate_path w target_base_dir src (metadata_of w src))).
  { exists cs, ct. auto. }
  destruct (plan_identical src (metadata_of w src) (after_metadata w src s) Hcr Hid)
    as (s2 & Hplan & (Hsub & Hst & Hrs) & Hda).
  pose proof (copy_one_cases w target_base_dir src s) as Hc. cbv zeta in Hc.
  rewrite Hplan in Hc. destruct Hc as [_ Hc].
  rewrite (node_at_mono _ _ _ _ Hsub Hcand) in Hc.
  destruct Hc as (c & [= <-] & _ & Hc).
  rewrite Hst, Hrs in Hc. exists (fs s2). auto.
Qed.

End CopyOneTheorems.

(** A file whose candidate path is free is copied there: when no regular
    file stands on the way to its album directory, the source is a regular
    file and shutil.copy2 does not fail, the body of the loop returns with a
    success record for the candidate path, which then holds the bytes of the
    source; copied_success grows by one and total_size by the length of the
    file; the record carries the size and the digest of these bytes; beside
    the new file only directories on the way to the album directory are
    added, and the source is as it was. *)
Theorem copy_one_copies_to_free_candidate (w : World) (target_base_dir src : path)
    (s : State) (c : list byte) :
  let md := metadata_of w src in
  let dir := target_dir_of target_base_dir md in
  let cand := candidate_path w target_base_dir src md in
  creatable (fs s) dir ->
  node_at (fs s) src = Some (File c) ->
  node_at (fs s) cand = None ->
  copy2_fails w src cand = false ->
  exists s',
    copy_one w target_base_dir src s = Ok tt s' /\
    results s' = results s ++
      [{| source_path := src; target_path := Some cand; filename := path_name cand;
          size_bytes := length c; status := Success; md5 := Some (md5_hexdigest w c);
          metadata := Some md; error := None |}] /\
    node_at (fs s') cand = Some (File c) /\
    node_at (fs s') src = Some (File c) /\
    dirs_ok (fs s') dir /\
    copied_success (stats s') = copied_success (stats s) + 1 /\
    copied_skipped (stats s') = copied_skipped (stats s) /\
    copied_failed (stats s') = copied_failed (stats s) /\
    total_size (stats s') = total_size (stats s) + length c /\
    (forall p, p <> cand ->
       node_at (fs s') p = node_at (fs s) p \/
       (node_at (fs s) p = None /\ node_at (fs s') p = Some Dir /\ p `prefix_of` dir)).
Proof.
  cbv zeta. intros Hcr Hsrc Hfree Hcopy.
  destruct (copy_one_fresh w target_base_dir src s c Hcr Hsrc Hfree Hcopy)
    as (f' & Hrun & Hda & Hdo & Hfree' & Hsub).
  set (cand := candidate_path w target_base_dir src (metadata_of w src)) in *.
  assert (Hc0 : cand <> []) by (intros E; rewrite E in Hfree; discriminate).
  assert (Hsub' : f' ⊆ <[cand := File c]> f') by (apply node_at_None_insert, Hfree').
  eexists. split; [exact Hrun|]. cbn [fs stats results].
  split; [reflexivity|].
  split; [apply node_at_insert_eq, Hc0|].
  split; [eapply node_at_mono; [etrans; [exact Hsub|exact Hsub']|exact Hsrc]|].
  split; [eapply dirs_ok_mono; eassumption|].
  unfold meta_update.
  split; [destruct (MutagenFile w src); reflexivity|].
  split; [destruct (MutagenFile w src); reflexivity|].
  split; [destruct (MutagenFile w src); reflexivity|].
  split; [destruct (MutagenFile w src); reflexivity|].
  intros p Hp. rewrite node_at_insert_ne by congruence. apply Hda.
Qed.

(** A file is skipped when its candidate path holds a regular file of the
    same size and the same MD5 digest, whatever its bytes are: the body of
    the loop returns with a skipped record that carries the size and the
    digest of the file at the candidate path; copied_skipped grows by one and
    total_size stays; no regular file is added or changed. *)
Theorem copy_one_skips_equal_digest (w : World) (target_base_dir src : path)
    (s : State) (cs ct : list byte) :
  let md := metadata_of w src in
  let dir := target_dir_of target_base_dir md in
  let cand := candidate_path w target_base_dir src md in
  creatable (fs s) dir ->
  node_at (fs s) src = Some (File cs) ->
  node_at (fs s) cand = Some (File ct) ->
  length cs = length ct ->
  md5_hexdigest w cs = md5_hexdigest w ct ->
  exists s',
    copy_one w target_base_dir src s = Ok tt s' /\
    results s' = results s ++
      [{| source_path := src; target_path := Some cand; filename := path_name cand;
          size_bytes := length ct; status := Skipped; md5 := Some (md5_hexdigest w ct);
          metadata := Some md; error := None |}] /\
    copied_skipped (stats s') = copied_skipped (stats s) + 1 /\
    copied_success (stats s') = copied_success (stats s) /\
    copied_failed (stats s') = copied_failed (stats s) /\
    total_size (stats s') = total_size (stats s) /\
    node_at (fs s') cand = Some (File ct) /\
    (forall p c, node_at (fs s') p = Some (File c) <-> node_at (fs s) p = Some (File c)).
Proof.
  cbv zeta. intros Hcr Hsrc Hcand Hlen Hmd.
  destruct (copy_one_identical w target_base_dir src s cs ct Hcr Hsrc Hcand Hlen Hmd)
    as (f' & Hrun & Hda & Hsub).
  eexists. split; [exact Hrun|]. cbn [fs stats results].
  split; [reflexivity|].
  unfold meta_update.
  split; [destruct (MutagenFile w src); reflexivity|].
  split; [destruct (MutagenFile w src); reflexivity|].
  split; [destruct (MutagenFile w src); reflexivity|].
  split; [destruct (MutagenFile w src); reflexivity|].
  split; [eapply node_at_mono; eassumption|].
  intros p c. eapply dirs_added_file, Hda.
Qed.


(** ** Names, and pairs of files with one candidate path *)

Lemma rsplit_dot_spec s : forall a b, rsplit_dot s = Some (a, b) -> s = a ++ 46%N :: b.
Proof.
  induction s as [|c s IH]; intros a b; simpl; [discriminate|].
  destruct (rsplit_dot s) as [[a' b']|].
  - intros [= <- <-]. simpl. f_equal. apply IH. reflexivity.
  - destruct (N.eqb_spec c 46) as [->|]; [|discriminate].
    intros [= <- <-]. reflexivity.
Qed.

(** A name is its stem followed by its suffix. *)
Lemma stem_suffix name : name_stem name ++ name_suffix name = name.
Proof.
  unfold name_stem, name_suffix.
  destruct (rsplit_dot name) as [[a b]|] eqn:E; [|apply app_nil_r].
  destruct (is_nil a || is_nil b); [apply app_nil_r|].
  symmetry. apply rsplit_dot_spec, E.
Qed.




Lemma numbered_not_candidate d name n :
  numbered d (name_stem name) (name_suffix name) n <> d ++ [name].
Proof.
  unfold numbered. intros H. apply app_inv_head in H.
  apply (f_equal (fun l => hd [] l)) in H. cbn [hd] in H.
  apply (f_equal (@length N)) in H.
  rewrite <- (stem_suffix name) in H at 3.
  rewrite !length_app in H. simpl in H. lia.
Qed.

Lemma not_prefix_numbered d st su n : ~ numbered d st su n `prefix_of` d.
Proof. apply not_prefix_app_one. Qed.

Section Pairs.

Variable w : World.
Variable target_base_dir : path.

(** The plan for a file whose candidate path is taken by another content
    while the path numbered 1 is free. *)
Lemma plan_number_one src md s cs ct :
  let dir := target_dir_of target_base_dir md in
  let name := target_filename w src md in
  dirs_ok (fs s) dir ->
  node_at (fs s) src = Some (File cs) ->
  node_at (fs s) (dir ++ [name]) = Some (File ct) ->
  (length cs <> length ct \/ md5_hexdigest w cs <> md5_hexdigest w ct) ->
  node_at (fs s) (numbered dir (name_stem name) (name_suffix name) 1) = None ->
  generate_target_path w target_base_dir src md s
  = Ok (numbered dir (name_stem name) (name_suffix name) 1) s.
Proof.
  cbv zeta. intros Hd Hs Ht Hdiff Hfree.
  rewrite generate_target_path_unfold, mkdir_p_noop by exact Hd. cbv zeta.
  unfold candidate_path.
  rewrite exists_in_eq, Ht. unfold identical. rewrite Hs, Ht.
  assert ((length cs =? length ct) &&
          bool_decide (md5_hexdigest w cs = md5_hexdigest w ct) = false) as ->.
  { destruct Hdiff as [Hl|Hm].
    - apply Nat.eqb_neq in Hl. rewrite Hl. reflexivity.
    - rewrite (bool_decide_eq_false_2 _ Hm). apply andb_false_r. }
  cbn [andb negb].
  rewrite collision_loop_unfold, exists_in_eq, Ht.
  change (100 <? 1 + 1) with false. cbv iota.
  rewrite collision_loop_unfold, exists_in_eq, Hfree. reflexivity.
Qed.

Lemma copy_one_number_one src s cs ct :
  let md := metadata_of w src in
  let dir := target_dir_of target_base_dir md in
  let name := target_filename w src md in
  let slot := numbered dir (name_stem name) (name_suffix name) 1 in
  dirs_ok (fs s) dir ->
  node_at (fs s) src = Some (File cs) ->
  node_at (fs s) (dir ++ [name]) = Some (File ct) ->
  (length cs <> length ct \/ md5_hexdigest w cs <> md5_hexdigest w ct) ->
  node_at (fs s) slot = None ->
  copy2_fails w src slot = false ->
  copy_one w target_base_dir src s =
  Ok tt {| fs := <[slot := File cs]> (fs s);
           stats := add_copied_success 1
                      (add_total_size (length cs) (meta_update w src (stats s)));
           results := results s ++ [done_record w src slot Success cs] |}.
Proof.
  cbv zeta. intros Hd Hs Ht Hdiff Hfree Hcopy.
  pose proof (plan_number_one src (metadata_of w src) (after_metadata w src s) cs ct
                Hd Hs Ht Hdiff Hfree) as Hplan. cbv zeta in Hplan.
  pose proof (copy_one_cases w target_base_dir src s) as Hc. cbv zeta in Hc.
  rewrite Hplan in Hc. destruct Hc as [_ Hc].
  cbn [fs after_metadata] in Hc. rewrite Hfree, Hcopy, Hs in Hc. exact Hc.
Qed.

End Pairs.

(** Dedup.  Two files of the batch with the same candidate path, the same
    size and the same MD5 digest (the same file listed twice, for one) are
    copied once: with a free candidate path, the first gets a success
    record and the second a skipped record with the same target; the
    candidate path holds the bytes of the first, and total_size grows by the
    length of one file. *)
Theorem equal_files_copied_once (w : World) (target_base_dir src1 src2 : path)
    (s : State) (c1 c2 : list byte) :
  let md := metadata_of w src1 in
  let dir := target_dir_of target_base_dir md in
  let cand := candidate_path w target_base_dir src1 md in
  candidate_path w target_base_dir src2 (metadata_of w src2) = cand ->
  creatable (fs s) dir ->
  node_at (fs s) src1 = Some (File c1) ->
  node_at (fs s) src2 = Some (File c2) ->
  length c1 = length c2 ->
  md5_hexdigest w c1 = md5_hexdigest w c2 ->
  node_at (fs s) cand = None ->
  copy2_fails w src1 cand = false ->
  exists s',
    copy_loop w target_base_dir [src1; src2] s = Ok tt s' /\
    results s' = results s ++
      [done_record w src1 cand Success c1; done_record w src2 cand Skipped c1] /\
    node_at (fs s') cand = Some (File c1) /\
    copied_success (stats s') = copied_success (stats s) + 1 /\
    copied_skipped (stats s') = copied_skipped (stats s) + 1 /\
    copied_failed (stats s') = copied_failed (stats s) /\
    total_size (stats s') = total_size (stats s) + length c1.
Proof.
  cbv zeta. intros Hcand Hcr Hs1 Hs2 Hlen Hmd Hfree Hcopy.
  destruct (copy_one_fresh w target_base_dir src1 s c1 Hcr Hs1 Hfree Hcopy)
    as (f' & Hrun1 & Hda & Hdo & Hfree' & Hsub).
  set (cand := candidate_path w target_base_dir src1 (metadata_of w src1)) in *.
  set (dir := target_dir_of target_base_dir (metadata_of w src1)) in *.
  assert (Hdir : target_dir_of target_base_dir (metadata_of w src2) = dir).
  { unfold candidate_path in Hcand. unfold cand, candidate_path in Hcand.
    apply app_inj_tail in Hcand as [H _]. exact H. }
  assert (Hc0 : cand <> []) by (intros E; rewrite E in Hfree; discriminate).
  assert (Hne : cand <> src2) by (intros E; rewrite E in Hfree; congruence).
  assert (Hsub' : f' ⊆ <[cand := File c1]> f') by (apply node_at_None_insert, Hfree').
  match type of Hrun1 with _ = Ok tt ?st => set (s1 := st) in * end.
  assert (Hset : settled w target_base_dir (fs s1) src2).
  { split.
    - rewrite Hdir. eapply dirs_ok_mono; [exact Hsub'|exact Hdo].
    - rewrite Hcand. exists c2, c1. cbn [fs s1].
      split; [rewrite node_at_insert_ne by exact Hne;
              eapply node_at_mono; [exact Hsub|exact Hs2]|].
      split; [apply node_at_insert_eq, Hc0|]. split; congruence. }
  pose proof (copy_one_cases w target_base_dir src2 s1) as Hc. cbv zeta in Hc.
  destruct Hset as [Hd2 Hi2].
  assert (Hplan : generate_target_path w target_base_dir src2 (metadata_of w src2)
                    (after_metadata w src2 s1) = Ok cand (after_metadata w src2 s1)).
  { rewrite generate_target_path_unfold, mkdir_p_noop by exact Hd2. cbv zeta.
    apply identical_true in Hi2. cbn [fs after_metadata]. rewrite Hi2, andb_false_r.
    rewrite Hcand. reflexivity. }
  rewrite Hplan in Hc. destruct Hc as [_ Hc]. cbn [fs after_metadata s1] in Hc.
  rewrite (node_at_insert_eq f' cand (File c1) Hc0) in Hc.
  destruct Hc as (c & [= <-] & _ & Hc).
  eexists. split.
  { simpl. unfold bind. rewrite Hrun1, Hc. reflexivity. }
  cbn [fs stats results after_metadata s1].
  split; [rewrite <- app_assoc; reflexivity|].
  split; [apply node_at_insert_eq, Hc0|].
  unfold meta_update.
  destruct (MutagenFile w src1), (MutagenFile w src2); cbn; repeat split; lia.
Qed.

(** Disambiguation.  Two files of the batch with the same candidate path
    and different sizes or digests are both copied, the second one to the
    path numbered 1 when that is free: two success records, the candidate
    path holds the bytes of the first and the numbered path those of the
    second. *)
Theorem clashing_files_get_number_one (w : World) (target_base_dir src1 src2 : path)
    (s : State) (c1 c2 : list byte) :
  let md := metadata_of w src1 in
  let dir := target_dir_of target_base_dir md in
  let name := target_filename w src1 md in
  let cand := dir ++ [name] in
  let slot := numbered dir (name_stem name) (name_suffix name) 1 in
  candidate_path w target_base_dir src2 (metadata_of w src2) = cand ->
  creatable (fs s) dir ->
  node_at (fs s) src1 = Some (File c1) ->
  node_at (fs s) src2 = Some (File c2) ->
  (length c2 <> length c1 \/ md5_hexdigest w c2 <> md5_hexdigest w c1) ->
  node_at (fs s) cand = None ->
  node_at (fs s) slot = None ->
  copy2_fails w src1 cand = false ->
  copy2_fails w src2 slot = false ->
  exists s',
    copy_loop w target_base_dir [src1; src2] s = Ok tt s' /\
    results s' = results s ++
      [done_record w src1 cand Success c1; done_record w src2 slot Success c2] /\
    node_at (fs s') cand = Some (File c1) /\
    node_at (fs s') slot = Some (File c2) /\
    copied_success (stats s') = copied_success (stats s) + 2 /\
    total_size (stats s') = total_size (stats s) + length c1 + length c2.
Proof.
  cbv zeta. intros Hcand Hcr Hs1 Hs2 Hdiff Hfree Hslot Hcopy1 Hcopy2.
  destruct (copy_one_fresh w target_base_dir src1 s c1 Hcr Hs1 Hfree Hcopy1)
    as (f' & Hrun1 & Hda & Hdo & Hfree' & Hsub).
  unfold candidate_path in Hrun1, Hcand, Hfree'.
  set (dir := target_dir_of target_base_dir (metadata_of w src1)) in *.
  set (name := target_filename w src1 (metadata_of w src1)) in *.
  set (cand := dir ++ [name]) in *.
  set (slot := numbered dir (name_stem name) (name_suffix name) 1) in *.
  apply app_inj_tail in Hcand as [Hdir Hname].
  assert (Hc0 : cand <> []) by (intros E; rewrite E in Hfree; discriminate).
  assert (Hs0 : slot <> []) by (intros E; rewrite E in Hslot; discriminate).
  assert (Hne : cand <> src2) by (intros E; rewrite E in Hfree; congruence).
  assert (Hns : cand <> slot) by (intros E; symmetry in E; revert E; apply numbered_not_candidate).
  assert (Hslot2 : slot <> src2) by (intros E; rewrite E in Hslot; congruence).
  assert (Hsub' : f' ⊆ <[cand := File c1]> f') by (apply node_at_None_insert, Hfree').
  match type of Hrun1 with _ = Ok tt ?st => set (s1 := st) in * end.
  assert (Hslot' : node_at f' slot = None).
  { eapply dirs_added_None; [exact Hda|apply not_prefix_numbered|exact Hslot]. }
  pose proof (copy_one_number_one w target_base_dir src2 s1 c2 c1) as Hrun2.
  cbv zeta in Hrun2. rewrite Hdir, Hname in Hrun2. fold slot in Hrun2. fold cand in Hrun2.
  cbn [fs s1] in Hrun2.
  rewrite (node_at_insert_ne f' cand src2 (File c1) Hne) in Hrun2.
  rewrite (node_at_insert_eq f' cand (File c1) Hc0) in Hrun2.
  rewrite (node_at_insert_ne f' cand slot (File c1) Hns) in Hrun2.
  specialize (Hrun2 ltac:(eapply dirs_ok_mono; [exact Hsub'|exact Hdo])
                ltac:(eapply node_at_mono; [exact Hsub|exact Hs2])
                eq_refl Hdiff Hslot' Hcopy2).
  eexists. split.
  { simpl. unfold bind. rewrite Hrun1, Hrun2. reflexivity. }
  cbn [fs stats results s1].
  split; [rewrite <- app_assoc; reflexivity|].
  split; [rewrite node_at_insert_ne by congruence; apply node_at_insert_eq, Hc0|].
  split; [apply node_at_insert_eq, Hs0|].
  unfold meta_update.
  destruct (MutagenFile w src1), (MutagenFile w src2); cbn; repeat split; lia.
Qed.

(** ** The planner and the run *)

Lemma sanitize_filename_no_replaced name :
  Forall (fun c => char_in c replaced_chars = false) (sanitize_filename name).
Proof.
  rewrite sanitize_filename_eq. unfold body.
  destruct (strip [32; 46]%N (map lookalike name)) as [|c0 t0] eqn:E; cbn [is_nil].
  - vm_compute. repeat constructor.
  - rewrite <- E.
    destruct (strip_sublist [32; 46]%N (map lookalike name)) as (a & b & H).
    assert (Hall : Forall (fun c => char_in c replaced_chars = false) (map lookalike name)).
    { apply List.Forall_forall. intros c Hc. apply in_map_iff in Hc as (d & <- & _).
      apply lookalike_not_replaced. }
    rewrite H in Hall at 1.
    apply Forall_app in Hall as [_ Hall]. apply Forall_app in Hall as [Hall _].
    exact Hall.
Qed.

Lemma sanitize_filename_head name c t :
  sanitize_filename name = c :: t -> char_in c [32; 46]%N = false.
Proof.
  rewrite sanitize_filename_eq. unfold body.
  destruct (strip [32; 46]%N (map lookalike name)) as [|c0 t0] eqn:E; cbn [is_nil].
  - intros [= <- _]. reflexivity.
  - intros [= <- <-]. eapply strip_head, E.
Qed.

Lemma sanitize_filename_clean name : clean_name (sanitize_filename name).
Proof.
  split; [apply sanitize_filename_nonempty|].
  split; [apply sanitize_filename_no_replaced|].
  split; intros H; apply sanitize_filename_head in H; discriminate.
Qed.


(** The planned path: always three levels below the target base directory,
    in an album directory with sanitized names that exists when the planner
    returns; the file name is the one of lines 230-244 or that name with a
    number from 1 to 99 before its suffix, and is sanitized when the tags
    have a title; the path is free or holds a file of the size and digest of
    the source. *)
Theorem planned_path_shape (w : World) (target_base_dir src : path) (md : Metadata)
    (s s' : State) (t : path) :
  generate_target_path w target_base_dir src md s = Ok t s' ->
  exists artist album name,
    t = target_base_dir ++ [artist; album; name] /\
    clean_name artist /\ clean_name album /\
    dirs_ok (fs s') (target_base_dir ++ [artist; album]) /\
    (name = target_filename w src md \/
     exists n, 1 <= n <= 99 /\
       name = name_stem (target_filename w src md) ++ u " (" ++ str_of_nat n ++ u ")"
              ++ name_suffix (target_filename w src md)) /\
    (truthy_str (title md) = true -> clean_name (target_filename w src md)) /\
    (node_at (fs s') t = None \/ identical_files w (fs s') src t).
Proof.
  intros Hplan.
  pose proof (generate_target_path_frame w target_base_dir src md s) as Hf.
  pose proof (generate_target_path_spec w target_base_dir src md s) as Hg.
  cbv zeta in Hf. unfold post in Hf, Hg. rewrite Hplan in Hf, Hg.
  destruct Hf as (_ & Hshape). destruct Hg as (_ & Hd & Hcase).
  assert (Hname : exists name,
    t = target_dir_of target_base_dir md ++ [name] /\
    (name = target_filename w src md \/
     exists n, 1 <= n <= 99 /\
       name = name_stem (target_filename w src md) ++ u " (" ++ str_of_nat n ++ u ")"
              ++ name_suffix (target_filename w src md))).
  { destruct Hshape as [->|(n & Hn & ->)]; eexists; (split; [reflexivity|]); eauto. }
  destruct Hname as (name & -> & Hname).
  unfold target_dir_of in *. cbv zeta in *.
  eexists _, _, name. split; [rewrite <- app_assoc; reflexivity|].
  split; [apply sanitize_filename_clean|].
  split; [apply sanitize_filename_clean|].
  split; [exact Hd|]. split; [exact Hname|]. split.
  - intros Ht. unfold target_filename. rewrite Ht. apply sanitize_filename_clean.
  - destruct Hcase as [Hfree|Hid]; [left; apply exists_in_false, Hfree|].
    right. apply identical_true, Hid.
Qed.


Lemma valid_paths_files (w : World) (f : FS) dir lines :
  Forall (fun p => exists c, node_at f p = Some (File c)) (valid_paths w f dir lines).
Proof.
  induction lines as [|raw lines IH]; simpl; [constructor|].
  destruct (line_path w f dir raw) as [p|] eqn:E; [|exact IH].
  constructor; [|exact IH].
  unfold line_path, resolved in E. destruct (counted raw); [|discriminate].
  destruct (locate w (py_strip raw) dir) as [q|]; [|discriminate].
  destruct (node_at f q) as [[c|]|] eqn:Eq; try discriminate.
  injection E as <-. eauto.
Qed.


(** ** The parser and the comparison of files *)

Section ParserCounts.

Variable w : World.

Lemma fold_line_stats_entries f dir lines : forall t,
  let t' := fold_left (line_stats w f dir) lines t in
  total_entries t' = total_entries t + count_lines counted lines /\
  missing_files t' = missing_files t + count_lines (missing_line w f dir) lines.
Proof.
  induction lines as [|raw lines IH]; intros t; cbv zeta.
  - simpl. split; lia.
  - simpl fold_left. destruct (IH (line_stats w f dir t raw)) as (-> & ->).
    simpl count_lines. unfold line_stats, missing_line.
    destruct (counted raw); [|simpl; split; lia].
    unfold resolved, names_missing.
    destruct (locate w (py_strip raw) dir) as [p|]; [|simpl; split; lia].
    destruct (node_at f p) as [[c|]|]; simpl; split; lia.
Qed.

Lemma counted_lines_split f dir lines :
  count_lines counted lines =
  length (valid_paths w f dir lines) + count_lines (missing_line w f dir) lines
  + count_lines (unlocatable w dir) lines.
Proof.
  induction lines as [|raw lines IH]; [reflexivity|].
  simpl. rewrite IH. unfold line_path, missing_line, unlocatable, resolved, names_missing.
  destruct (counted raw); [|simpl; lia].
  destruct (locate w (py_strip raw) dir) as [p|]; [|simpl; lia].
  destruct (node_at f p) as [[c|]|]; simpl; lia.
Qed.

Lemma valid_paths_is_file f dir lines :
  Forall (fun p => is_file_in f p = true) (valid_paths w f dir lines).
Proof.
  eapply List.Forall_impl; [|apply valid_paths_files].
  intros p [c Hc]. unfold is_file_in. rewrite Hc. reflexivity.
Qed.

End ParserCounts.

(** The loop over the lines of the playlist never raises and touches
    neither the file system nor the records.  Every counted line is an
    entry; the entries are the returned files, which are regular files, the
    entries that name a path which is no regular file, which are the missing
    files, and the entries whose resolution raised, which no counter
    records.  So total_entries is valid_files plus missing_files only when
    no resolution raised.  The copy and metadata counters stay. *)
Theorem parse_lines_accounting (w : World) (m3u8_dir : path) (acc : list path)
    (lines : list str) (s : State) :
  exists l s',
    parse_lines w m3u8_dir acc lines s = Ok (acc ++ l) s' /\
    fs s' = fs s /\ results s' = results s /\
    Forall (fun p => is_file_in (fs s) p = true) l /\
    total_entries (stats s') = total_entries (stats s) + count_lines counted lines /\
    valid_files (stats s') = valid_files (stats s) + length l /\
    missing_files (stats s') =
      missing_files (stats s) + count_lines (missing_line w (fs s) m3u8_dir) lines /\
    count_lines counted lines =
      length l + count_lines (missing_line w (fs s) m3u8_dir) lines
      + count_lines (unlocatable w m3u8_dir) lines /\
    metadata_read_success (stats s') = metadata_read_success (stats s) /\
    metadata_read_failed (stats s') = metadata_read_failed (stats s) /\
    copied_success (stats s') = copied_success (stats s) /\
    copied_skipped (stats s') = copied_skipped (stats s) /\
    copied_failed (stats s') = copied_failed (stats s) /\
    total_size (stats s') = total_size (stats s).
Proof.
  destruct s as [f t rs]. rewrite parse_lines_eq.
  eexists _, _. split; [reflexivity|]. cbn [fs stats results].
  split; [reflexivity|]. split; [reflexivity|].
  split; [apply valid_paths_is_file|].
  pose proof (fold_line_stats_entries w f m3u8_dir lines t) as He.
  pose proof (fold_line_stats w f m3u8_dir lines t) as Hs.
  cbv zeta in He, Hs.
  destruct He as (He1 & He2). destruct Hs as (H1 & H2 & H3 & H4 & H5 & H6 & H7).
  split; [exact He1|]. split; [exact H1|]. split; [exact He2|].
  split; [apply counted_lines_split|]. auto 10.
Qed.

(** The ways parse_m3u8 gives up.  A playlist path that does not exist or is
    a directory gives the empty list and leaves the state as it is.  A
    playlist whose decoding fails after some lines gives the empty list as
    well, but the entries and valid files of the lines read before stay
    counted.  In each case run returns False, writes no record and leaves
    the file system as it is. *)
Theorem parse_m3u8_failure_modes (w : World) (m3u8_path target_base_dir : path)
    (s : State) :
  (node_at (fs s) m3u8_path = None \/ node_at (fs s) m3u8_path = Some Dir ->
   parse_m3u8 w m3u8_path s = Ok [] s /\
   run w m3u8_path target_base_dir s = Ok false s) /\
  (forall c, node_at (fs s) m3u8_path = Some (File c) ->
     snd (decode_lines w c) = true ->
     let lines := fst (decode_lines w c) in
     exists s',
       parse_m3u8 w m3u8_path s = Ok [] s' /\
       run w m3u8_path target_base_dir s = Ok false s' /\
       fs s' = fs s /\ results s' = results s /\
       total_entries (stats s') = total_entries (stats s) + count_lines counted lines /\
       valid_files (stats s') =
         valid_files (stats s)
         + length (valid_paths w (fs s) (path_parent m3u8_path) lines)).
Proof.
  destruct s as [f t rs]. cbn [fs stats results]. split.
  - intros H. assert (Hp : parse_m3u8 w m3u8_path {| fs := f; stats := t; results := rs |}
                           = Ok [] {| fs := f; stats := t; results := rs |}).
    { rewrite parse_m3u8_eq. destruct H as [-> | ->]; reflexivity. }
    split; [exact Hp|]. rewrite run_eq, Hp. reflexivity.
  - intros c Hc Hdec. cbv zeta.
    assert (Hp : parse_m3u8 w m3u8_path {| fs := f; stats := t; results := rs |}
                 = Ok [] {| fs := f;
                            stats := fold_left (line_stats w f (path_parent m3u8_path))
                                       (fst (decode_lines w c)) t;
                            results := rs |}).
    { rewrite parse_m3u8_eq, Hc, Hdec. reflexivity. }
    eexists. split; [exact Hp|]. split; [rewrite run_eq, Hp; reflexivity|].
    cbn [fs stats results]. split; [reflexivity|]. split; [reflexivity|].
    pose proof (fold_line_stats_entries w f (path_parent m3u8_path)
                  (fst (decode_lines w c)) t) as He.
    pose proof (fold_line_stats w f (path_parent m3u8_path) (fst (decode_lines w c)) t) as Hs.
    cbv zeta in He, Hs. split; [apply He|apply Hs].
Qed.

(** _files_identical never raises and leaves the state as it is; the order
    of its arguments does not matter.  It returns True exactly when both
    paths are regular files of the same size and the same MD5 digest: so for
    two regular files with the same bytes, and never when one of the paths
    is missing or is a directory (the exception of the read is caught). *)
Theorem files_identical_spec (w : World) (file1 file2 : path) (s : State) :
  exists r,
    _files_identical w file1 file2 s = Ok r s /\
    _files_identical w file2 file1 s = Ok r s /\
    (r = true <->
     exists c1 c2, node_at (fs s) file1 = Some (File c1) /\
       node_at (fs s) file2 = Some (File c2) /\
       length c1 = length c2 /\ md5_hexdigest w c1 = md5_hexdigest w c2) /\
    (forall c, node_at (fs s) file1 = Some (File c) ->
       node_at (fs s) file2 = Some (File c) -> r = true) /\
    (node_at (fs s) file1 = None \/ node_at (fs s) file1 = Some Dir \/
     node_at (fs s) file2 = None \/ node_at (fs s) file2 = Some Dir -> r = false).
Proof.
  exists (identical w (fs s) file1 file2).
  split; [apply files_identical_eq|].
  split.
  { rewrite files_identical_eq. f_equal. unfold identical.
    destruct (node_at (fs s) file1) as [[c1|]|], (node_at (fs s) file2) as [[c2|]|];
      try reflexivity.
    rewrite Nat.eqb_sym. f_equal. apply bool_decide_ext. split; congruence. }
  split; [apply identical_true|].
  split.
  - intros c H1 H2. apply identical_true. exists c, c. auto.
  - unfold identical. intros [->|[->|[H|H]]]; try reflexivity;
      rewrite H; destruct (node_at (fs s) file1) as [[?|]|]; reflexivity.
Qed.

(** ** The digest and the summary *)

Lemma chunk_size_pos : 1 <= chunk_size.
Proof. unfold chunk_size. lia. Qed.

Section Chunks.

Context {H : Type} `{Hasher H}.

Lemma md5_read_loop_chunks fuel : forall (rest : list byte) (md5_hash : H),
  length rest < fuel ->
  exists chunks,
    md5_read_loop fuel md5_hash rest = Some (fold_left md5_update chunks md5_hash) /\
    concat chunks = rest /\
    Forall (fun chunk => 1 <= length chunk <= chunk_size) chunks.
Proof.
  induction fuel as [|fuel IH]; intros rest st Hlen; [lia|].
  pose proof chunk_size_pos as Hpos.
  cbn [md5_read_loop file_read].
  destruct (take chunk_size rest) as [|b chunk] eqn:Et.
  - exists []. cbn [is_nil fold_left concat]. split; [reflexivity|]. split; [|constructor].
    destruct rest as [|b rest]; [reflexivity|].
    destruct chunk_size; [lia|discriminate].
  - cbn [is_nil]. rewrite <- Et.
    assert (Hne : 1 <= length (take chunk_size rest)) by (rewrite Et; simpl; lia).
    assert (Hle : length (take chunk_size rest) <= chunk_size).
    { rewrite length_take. lia. }
    destruct (IH (drop chunk_size rest) (md5_update st (take chunk_size rest)))
      as (chunks & Hloop & Hcat & Hall).
    { rewrite length_drop. rewrite length_take in Hne. lia. }
    exists (take chunk_size rest :: chunks). split; [exact Hloop|]. split.
    + cbn [concat]. rewrite Hcat. apply take_drop.
    + constructor; [lia|exact Hall].
Qed.

End Chunks.

(** _calculate_md5 reads the whole file.  The loop of lines 389-390 ends
    after at most one read more than the file has bytes; the chunks it feeds
    to the hash object are non-empty, at most 8192 bytes long, and together
    they are the content of the file.  For a hash object whose digest
    depends only on the concatenation of what it was fed, and whose digest of
    a content is md5_hexdigest of it, the digest after the loop is the one
    that _calculate_md5 returns for the file. *)
Theorem calculate_md5_reads_whole_file (w : World) (H : Type) (hasher : Hasher H)
    (file_path : path) (s : State) (content : list byte) (fuel : nat) :
  node_at (fs s) file_path = Some (File content) ->
  length content < fuel ->
  exists chunks,
    md5_read_loop fuel md5_new content = Some (fold_left md5_update chunks md5_new) /\
    concat chunks = content /\
    Forall (fun chunk => 1 <= length chunk <= chunk_size) chunks /\
    ((forall l1 l2 : list (list byte), concat l1 = concat l2 ->
        md5_digest (fold_left md5_update l1 md5_new)
        = md5_digest (fold_left md5_update l2 md5_new)) ->
     (forall c, md5_digest (md5_update md5_new c) = md5_hexdigest w c) ->
     _calculate_md5 w file_path s
     = Ok (md5_digest (fold_left md5_update chunks md5_new)) s).
Proof.
  intros Hfile Hfuel.
  destruct (md5_read_loop_chunks fuel content md5_new Hfuel) as (chunks & Hloop & Hcat & Hall).
  exists chunks. split; [exact Hloop|]. split; [exact Hcat|]. split.
  - exact Hall.
  - intros Hstream Hone. unfold _calculate_md5. calm. rewrite Hfile. f_equal.
    rewrite <- Hone. symmetry.
    apply (Hstream chunks [content]). cbn [concat]. rewrite app_nil_r. exact Hcat.
Qed.

Section Verdict.

Variable w : World.

Lemma fold_item_update_read_errors rs : forall t,
  metadata_read_failed (fold_left (item_update w) rs t)
  = metadata_read_failed t + count_read_errors w (map source_path rs).
Proof.
  induction rs as [|r rs IH]; intros t.
  - unfold count_read_errors. simpl. lia.
  - simpl fold_left. rewrite IH. unfold count_read_errors. simpl map. rewrite filter_cons.
    unfold item_update, outcome_update, meta_update.
    destruct (MutagenFile w (source_path r)) eqn:E; cbn [is_read_error];
      case_decide; try discriminate; try congruence;
      destruct (status r); simpl; lia.
Qed.

End Verdict.

(** The message that closes the summary of a completed run, read off the
    records and the playlist.  Copy failures are reported when a record is
    failed; else missing sources when a counted line of the playlist names a
    path that is no regular file; else metadata failures when reading the
    tags of a processed file raised; else the success message.  Entries
    whose resolution raised and files that mutagen does not recognize do not
    stand in the way of the success message. *)
Theorem summary_after_run (w : World) (m3u8_path target_base_dir : path) (f : FS)
    (s' : State) :
  run w m3u8_path target_base_dir (init_state f) = Ok true s' ->
  exists lines,
    playlist_lines w m3u8_path f = Some lines /\
    let failed := count_status Failed (results s') in
    let missing := count_lines (missing_line w f (path_parent m3u8_path)) lines in
    let unread := count_read_errors w (map source_path (results s')) in
    copied_failed (stats s') = failed /\
    missing_files (stats s') = missing /\
    metadata_read_failed (stats s') = unread /\
    (print_summary (stats s') = CopyFailures <-> 0 < failed) /\
    (print_summary (stats s') = MissingSources <-> failed = 0 /\ 0 < missing) /\
    (print_summary (stats s') = MetadataFailures <->
       failed = 0 /\ missing = 0 /\ 0 < unread) /\
    (print_summary (stats s') = AllProcessed <->
       failed = 0 /\ missing = 0 /\ unread = 0).
Proof.
  intros Hrun.
  apply run_true_spec in Hrun as (lines & Hpl & _ & _ & _ & _ & Hst & _).
  exists lines. split; [exact Hpl|]. cbv zeta.
  set (t0 := stats (parsed_state w m3u8_path f lines)) in *.
  destruct (fold_item_update_copy w (results s') t0) as (_ & _ & C3 & _).
  destruct (fold_item_update_parse w (results s') t0) as (_ & _ & Hmiss).
  pose proof (fold_item_update_read_errors w (results s') t0) as Hmeta.
  rewrite <- Hst in C3, Hmiss, Hmeta.
  destruct (parsed_state_no_copies w m3u8_path f lines) as (_ & _ & Z3 & _).
  fold t0 in Z3. rewrite Z3 in C3. simpl in C3.
  pose proof (fold_line_stats_entries w f (path_parent m3u8_path) lines zero_stats) as He.
  pose proof (fold_line_stats w f (path_parent m3u8_path) lines zero_stats) as Hs.
  cbv zeta in He, Hs. destruct He as (_ & He). destruct Hs as (_ & _ & Hs & _).
  assert (M0 : missing_files t0 = count_lines (missing_line w f (path_parent m3u8_path)) lines).
  { unfold t0, parsed_state. cbn [stats]. rewrite He. reflexivity. }
  assert (F0 : metadata_read_failed t0 = 0).
  { unfold t0, parsed_state. cbn [stats]. rewrite Hs. reflexivity. }
  rewrite M0 in Hmiss. rewrite F0 in Hmeta. simpl in Hmeta.
  split; [exact C3|]. split; [exact Hmiss|]. split; [exact Hmeta|].
  unfold print_summary. rewrite C3, Hmiss, Hmeta.
  destruct (Nat.ltb_spec 0 (count_status Failed (results s'))) as [Hf|Hf].
  { repeat split; intros; try discriminate; try lia. }
  destruct (Nat.ltb_spec 0 (count_lines (missing_line w f (path_parent m3u8_path)) lines))
    as [Hm|Hm].
  { repeat split; intros; try discriminate; try lia. }
  destruct (Nat.ltb_spec 0 (count_read_errors w (map source_path (results s')))) as [Hu|Hu];
    repeat split; intros; try discriminate; try lia.
Qed.

(** ** The bytes that a run adds *)





Section Fresh.

Variable w : World.
Variable target_base_dir : path.



End Fresh.


(** ** Sanitized names, empty tags and numbered names *)

Lemma lookalike_id c : char_in c replaced_chars = false -> lookalike c = c.
Proof.
  unfold char_in, replaced_chars, lookalike. cbn [existsb].
  repeat match goal with
  | |- context [(c =? ?y)%N] => destruct (N.eqb_spec c y) as [->|?]; [discriminate|]
  end. reflexivity.
Qed.

Lemma rstrip_fixed chars s :
  (forall t c, s = t ++ [c] -> char_in c chars = false) -> rstrip chars s = s.
Proof.
  intros H. unfold rstrip. rewrite lstrip_fixed; [apply rev_involutive|].
  destruct (rev s) as [|c t] eqn:E; [exact I|].
  apply (H (rev t) c). rewrite <- (rev_involutive s), E. reflexivity.
Qed.

(** The names that sanitize_filename returns as they are: the non-empty
    names without any of the eight replaced characters that neither start
    nor end with a space or a dot.  These are exactly the names it can
    return. *)
Theorem sanitize_filename_fixed_points (name : str) :
  (sanitize_filename name = name <->
   name <> [] /\
   Forall (fun c => char_in c replaced_chars = false) name /\
   (forall c t, name = c :: t -> char_in c [32; 46]%N = false) /\
   (forall t c, name = t ++ [c] -> char_in c [32; 46]%N = false)) /\
  (forall x, sanitize_filename x = name -> sanitize_filename name = name).
Proof.
  split; [split|].
  - intros Hfix. rewrite <- Hfix.
    split; [apply sanitize_filename_nonempty|].
    split; [apply sanitize_filename_no_replaced|].
    split; [intros c t; apply sanitize_filename_head|].
    intros t c. rewrite sanitize_filename_eq. unfold body.
    destruct (strip [32; 46]%N (map lookalike name)) as [|c0 t0] eqn:E; cbn [is_nil].
    + intros Hu. apply (f_equal (@rev N)) in Hu. rewrite rev_app_distr in Hu.
      vm_compute in Hu. injection Hu as <- _. reflexivity.
    + intros Hu. rewrite <- E in Hu. eapply strip_last, Hu.
  - intros (Hne & Hall & Hhead & Hlast).
    rewrite sanitize_filename_eq. unfold body.
    assert (Hmap : map lookalike name = name).
    { clear Hne Hhead Hlast. induction Hall as [|c l Hc _ IH]; [reflexivity|].
      simpl. rewrite (lookalike_id c Hc), IH. reflexivity. }
    rewrite Hmap. unfold strip.
    rewrite (lstrip_fixed [32; 46]%N name).
    2:{ destruct name as [|c t]; [exact I|]. eapply Hhead. reflexivity. }
    rewrite (rstrip_fixed [32; 46]%N name Hlast).
    destruct name; [congruence|reflexivity].
  - intros x <-. apply sanitize_filename_idempotent.
Qed.

Lemma or_else_clean a b : or_else (clean_str a) b = or_else a b.
Proof. destruct a as [[|c s]|]; reflexivity. Qed.

Lemma truthy_str_clean a : truthy_str (clean_str a) = truthy_str a.
Proof. destruct a as [[|c s]|]; reflexivity. Qed.

Lemma default_clean a : default [] (clean_str a) = default [] a.
Proof. destruct a as [[|c s]|]; reflexivity. Qed.

Lemma truthy_track_clean t : truthy_track (clean_track t) = truthy_track t.
Proof. destruct t as [[[|c s]|z]|]; reflexivity. Qed.

Lemma str_of_track_clean t :
  truthy_track t = true -> str_of_track (clean_track t) = str_of_track t.
Proof. destruct t as [[[|c s]|z]|]; try reflexivity; discriminate. Qed.

(** Clearing the empty strings (lines 194-197) has no influence on the
    plan: an empty tag is taken like an absent one by lines 219-233, so the
    album directory, the file name and the whole result of
    generate_target_path are the same for a dictionary and for the
    dictionary with its empty strings cleared. *)
Theorem empty_tags_plan_like_absent (w : World) (target_base_dir src : path)
    (md : Metadata) :
  target_dir_of target_base_dir (clean_empty md) = target_dir_of target_base_dir md /\
  target_filename w src (clean_empty md) = target_filename w src md /\
  (forall s, generate_target_path w target_base_dir src (clean_empty md) s
             = generate_target_path w target_base_dir src md s).
Proof.
  assert (Hd : target_dir_of target_base_dir (clean_empty md)
               = target_dir_of target_base_dir md).
  { unfold target_dir_of. cbn [clean_empty album_artist artist album].
    rewrite !or_else_clean. reflexivity. }
  assert (Hn : target_filename w src (clean_empty md) = target_filename w src md).
  { unfold target_filename. cbn [clean_empty title track_number].
    rewrite truthy_str_clean, default_clean, truthy_track_clean.
    destruct (truthy_str (title md)); [|reflexivity].
    destruct (truthy_track (track_number md)) eqn:Et; [|reflexivity].
    rewrite (str_of_track_clean _ Et). reflexivity. }
  split; [exact Hd|]. split; [exact Hn|].
  intros s. unfold generate_target_path. rewrite Hd, Hn. reflexivity.
Qed.

Lemma rsplit_dot_None s : ~ In 46%N s -> rsplit_dot s = None.
Proof.
  induction s as [|c s IH]; [reflexivity|]. intros Hn. simpl.
  rewrite IH by (intros H; apply Hn; right; exact H).
  destruct (N.eqb_spec c 46) as [->|]; [|reflexivity].
  exfalso. apply Hn. left. reflexivity.
Qed.

Lemma rsplit_dot_None_inv s : rsplit_dot s = None -> ~ In 46%N s.
Proof.
  induction s as [|c s IH]; [intros _ []|]. simpl.
  destruct (rsplit_dot s) as [[a b]|]; [discriminate|].
  destruct (N.eqb_spec c 46) as [->|Hc]; [discriminate|].
  intros _ [H|H]; [congruence|]. exact (IH eq_refl H).
Qed.

Lemma rsplit_dot_tail s : forall a b, rsplit_dot s = Some (a, b) -> ~ In 46%N b.
Proof.
  induction s as [|c s IH]; intros a b; simpl; [discriminate|].
  destruct (rsplit_dot s) as [[a' b']|] eqn:E.
  - intros [= <- <-]. eapply IH. reflexivity.
  - destruct (N.eqb_spec c 46) as [->|]; [|discriminate].
    intros [= <- <-]. apply rsplit_dot_None_inv, E.
Qed.

Lemma rsplit_dot_app x b : ~ In 46%N b -> rsplit_dot (x ++ 46%N :: b) = Some (x, b).
Proof.
  intros Hb. induction x as [|c x IH]; simpl.
  - rewrite (rsplit_dot_None b Hb). reflexivity.
  - rewrite IH. reflexivity.
Qed.

(** The number goes before the extension.  For a name with a suffix, the
    numbered name of line 255 has the same suffix, and its stem is the stem
    of the name followed by the number in parentheses. *)
Theorem numbered_name_keeps_suffix (name : str) (counter : nat) :
  name_suffix name <> [] ->
  let new_filename :=
    name_stem name ++ u " (" ++ str_of_nat counter ++ u ")" ++ name_suffix name in
  name_suffix new_filename = name_suffix name /\
  name_stem new_filename = name_stem name ++ u " (" ++ str_of_nat counter ++ u ")".
Proof.
  cbv zeta. intros Hne.
  assert (Hab : exists a b, rsplit_dot name = Some (a, b) /\
                  is_nil a = false /\ is_nil b = false /\
                  name_suffix name = 46%N :: b /\ name_stem name = a).
  { unfold name_suffix in Hne. unfold name_suffix, name_stem.
    destruct (rsplit_dot name) as [[a b]|]; [|congruence].
    destruct (is_nil a || is_nil b) eqn:En; [congruence|].
    apply orb_false_iff in En as [Ha Hb]. exists a, b. auto. }
  destruct Hab as (a & b & E & Ha & Hb & -> & ->).
  pose proof (rsplit_dot_tail _ _ _ E) as Hdot.
  assert (Hsplit : rsplit_dot (a ++ u " (" ++ str_of_nat counter ++ u ")" ++ 46%N :: b)
                   = Some (a ++ u " (" ++ str_of_nat counter ++ u ")", b)).
  { rewrite <- (rsplit_dot_app (a ++ u " (" ++ str_of_nat counter ++ u ")") b Hdot).
    rewrite <- !app_assoc. reflexivity. }
  unfold name_suffix, name_stem. rewrite Hsplit.
  assert (is_nil (a ++ u " (" ++ str_of_nat counter ++ u ")") = false) as ->.
  { destruct a; [discriminate|reflexivity]. }
  rewrite Hb. cbn [orb]. split; reflexivity.
Qed.

(** * Concrete runs *)

(** The example of the specification: two entries, one valid file, one
    missing file, one record at the candidate path with status success. *)
Example spec_example :
  let r := main ex_world ex_argv ex_fs_spec in
  fst r = 0%Z /\
  total_entries (stats (snd r)) = 2 /\ valid_files (stats (snd r)) = 1 /\
  missing_files (stats (snd r)) = 1 /\
  map target_path (results (snd r)) = [Some (abs "/lib/A/B/C.mp3")] /\
  map status (results (snd r)) = [Success].
Proof. vm_compute. repeat split. Qed.

(** C1 fails here: the candidate holds another content and the path
    numbered 1 holds content identical to the source; the identity is not
    re-checked there and the path numbered 2 is returned. *)
Lemma suffix_identity_not_rechecked :
  generate_target_path ex_world ex_base ex_song (tagged "A" "B" "C")
    (init_state ex_fs_suffix)
  = Ok (abs "/lib/A/B/C (2).mp3") (init_state ex_fs_suffix) /\
  identical ex_world ex_fs_suffix ex_song (abs "/lib/A/B/C (1).mp3") = true.
Proof. split; vm_compute; reflexivity. Qed.

Lemma generate_target_path_collisions_witness :
  generate_target_path ex_world ex_base ex_song (tagged "A" "B" "C")
    (init_state ex_fs_suffix)
  = Ok (abs "/lib/A/B/C (2).mp3") (init_state ex_fs_suffix).
Proof.
  assert (Hm : mkdir_p (target_dir_of ex_base (tagged "A" "B" "C"))
                 (init_state ex_fs_suffix) = Ok tt (init_state ex_fs_suffix))
    by (vm_compute; reflexivity).
  destruct (generate_target_path_collisions ex_world ex_base ex_song
              (tagged "A" "B" "C") _ _ Hm) as (_ & H & _).
  apply (H ltac:(vm_compute; reflexivity) ltac:(vm_compute; reflexivity) 2 ltac:(lia)).
  - intros m Hm'. assert (m = 1) as -> by lia. vm_compute. reflexivity.
  - vm_compute. reflexivity.
Defined.

(** C2 fails here: two files of different content share their tags.
    The first run copies both, the second to the path numbered 1.  The second
    run skips the first file and copies the second one again, to the path
    numbered 2: a success record and four more bytes. *)
Lemma rerun_copies_numbered_file_again :
  let r1 := main ex_world ex_argv ex_fs_clash in
  let r2 := main ex_world ex_argv (fs (snd r1)) in
  fst r1 = 0%Z /\
  map status (results (snd r1)) = [Success; Success] /\
  map target_path (results (snd r1))
    = [Some (abs "/lib/A/B/C.mp3"); Some (abs "/lib/A/B/C (1).mp3")] /\
  fst r2 = 0%Z /\
  map status (results (snd r2)) = [Skipped; Success] /\
  map target_path (results (snd r2))
    = [Some (abs "/lib/A/B/C.mp3"); Some (abs "/lib/A/B/C (2).mp3")] /\
  total_size (stats (snd r2)) = 4.
Proof. vm_compute. repeat split. Qed.

Lemma rerun_skips_everything_witness :
  let s1 := snd (main ex_world ex_argv ex_fs_spec) in
  let s2 := snd (main ex_world ex_argv (fs s1)) in
  true = true /\
  Forall (fun r => status r = Skipped) (results s2) /\
  total_size (stats s2) = 0 /\
  fs s2 = fs s1 /\
  map source_path (results s2) = map source_path (results s1).
Proof.
  intros s1 s2.
  apply (rerun_skips_everything ex_world ex_m3u8 ex_base ex_fs_spec s1 s2 true).
  - vm_compute. reflexivity.
  - intros r Hr. vm_compute in Hr. destruct Hr as [<-|[]].
    split; [discriminate|]. eexists. split; vm_compute; reflexivity.
  - intros lines raw p Hpl Hraw Hc Hloc Hfile.
    vm_compute in Hpl. injection Hpl as <-.
    destruct Hraw as [<-|[<-|[<-|[]]]]; vm_compute in Hloc; injection Hloc as <-;
      vm_compute in Hfile; try discriminate; vm_compute; reflexivity.
  - vm_compute. reflexivity.
Defined.

Lemma shared_target_same_content_witness :
  let s' := snd (main ex_world ex_argv ex_fs_twice) in
  let r1 := nth 0 (results s') no_record in
  let r2 := nth 1 (results s') no_record in
  md5 r1 = md5 r2 /\ size_bytes r1 = size_bytes r2 /\
  exists c, node_at (fs s') (abs "/lib/A/B/C.mp3") = Some (File c) /\
    md5 r1 = Some (md5_hexdigest ex_world c) /\ size_bytes r1 = length c.
Proof.
  intros s' r1 r2.
  apply (shared_target_same_content ex_world ex_m3u8 ex_base ex_fs_twice true s' r1 r2).
  - vm_compute. reflexivity.
  - vm_compute. left. reflexivity.
  - vm_compute. right. left. reflexivity.
  - vm_compute. reflexivity.
  - vm_compute. reflexivity.
Defined.






(** A file that is not recognized: one valid file, and neither metadata
    counter moves. *)
Example unrecognized_file_counters :
  let st := stats (snd (main ex_world ex_argv ex_fs_unrecognized)) in
  valid_files st = 1 /\ metadata_read_success st = 0 /\ metadata_read_failed st = 0.
Proof. vm_compute. repeat split. Qed.

(** Without a title the name of the source file is kept as it is, colon
    included. *)
Example untitled_name_is_kept :
  target_filename ex_world (abs "/pl/a:b.mp3") empty_metadata = u "a:b.mp3".
Proof. vm_compute. reflexivity. Qed.

(** The album directory of the examples can be made when no regular file
    stands on the way to it. *)
Lemma ex_creatable (f : FS) :
  (forall c, node_at f (abs "/lib") <> Some (File c)) ->
  (forall c, node_at f (abs "/lib/A") <> Some (File c)) ->
  (forall c, node_at f (abs "/lib/A/B") <> Some (File c)) ->
  creatable f (target_dir_of ex_base (tagged "A" "B" "C")).
Proof.
  intros H1 H2 H3 k c Hk.
  assert (Hlen : length (target_dir_of ex_base (tagged "A" "B" "C")) = 3) by reflexivity.
  rewrite Hlen in Hk.
  destruct k as [|[|[|[|k]]]]; try lia; [apply H1|apply H2|apply H3].
Qed.

Lemma copy_one_copies_to_free_candidate_witness :
  exists s',
    copy_one ex_world ex_base ex_song (init_state ex_fs_plain) = Ok tt s' /\
    node_at (fs s') (abs "/lib/A/B/C.mp3") = Some (File (bytes_of "xyz")) /\
    total_size (stats s') = 3.
Proof.
  destruct (copy_one_copies_to_free_candidate ex_world ex_base ex_song
              (init_state ex_fs_plain) (bytes_of "xyz"))
    as (s' & H1 & _ & H3 & _ & _ & _ & _ & _ & H9 & _).
  - apply ex_creatable; intros; vm_compute; discriminate.
  - vm_compute. reflexivity.
  - vm_compute. reflexivity.
  - reflexivity.
  - exists s'. split; [exact H1|]. split; [exact H3|exact H9].
Defined.

Lemma copy_one_skips_equal_digest_witness :
  exists s',
    copy_one ex_world ex_base ex_song (init_state ex_fs_done) = Ok tt s' /\
    map status (results s') = [Skipped] /\
    total_size (stats s') = 0.
Proof.
  destruct (copy_one_skips_equal_digest ex_world ex_base ex_song
              (init_state ex_fs_done) (bytes_of "xyz") (bytes_of "xyz"))
    as (s' & H1 & H2 & _ & _ & _ & H6 & _).
  - apply ex_creatable; intros; vm_compute; discriminate.
  - vm_compute. reflexivity.
  - vm_compute. reflexivity.
  - reflexivity.
  - reflexivity.
  - exists s'. split; [exact H1|]. split; [rewrite H2; reflexivity|exact H6].
Defined.

Lemma equal_files_copied_once_witness :
  exists s',
    copy_loop ex_world ex_base [ex_song; ex_song] (init_state ex_fs_twice) = Ok tt s' /\
    map status (results s') = [Success; Skipped] /\
    total_size (stats s') = 3.
Proof.
  destruct (equal_files_copied_once ex_world ex_base ex_song ex_song
              (init_state ex_fs_twice) (bytes_of "xyz") (bytes_of "xyz"))
    as (s' & H1 & H2 & _ & _ & _ & _ & H7).
  - reflexivity.
  - apply ex_creatable; intros; vm_compute; discriminate.
  - vm_compute. reflexivity.
  - vm_compute. reflexivity.
  - reflexivity.
  - reflexivity.
  - vm_compute. reflexivity.
  - reflexivity.
  - exists s'. split; [exact H1|]. split; [rewrite H2; reflexivity|exact H7].
Defined.

Lemma clashing_files_get_number_one_witness :
  exists s',
    copy_loop ex_world ex_base [ex_one; ex_two] (init_state ex_fs_clash) = Ok tt s' /\
    map target_path (results s')
      = [Some (abs "/lib/A/B/C.mp3"); Some (abs "/lib/A/B/C (1).mp3")] /\
    node_at (fs s') (abs "/lib/A/B/C (1).mp3") = Some (File (bytes_of "uvw!")).
Proof.
  destruct (clashing_files_get_number_one ex_world ex_base ex_one ex_two
              (init_state ex_fs_clash) (bytes_of "xyz") (bytes_of "uvw!"))
    as (s' & H1 & H2 & _ & H4 & _).
  - reflexivity.
  - apply ex_creatable; intros; vm_compute; discriminate.
  - vm_compute. reflexivity.
  - vm_compute. reflexivity.
  - left. vm_compute. discriminate.
  - vm_compute. reflexivity.
  - vm_compute. reflexivity.
  - reflexivity.
  - reflexivity.
  - exists s'. split; [exact H1|]. split; [rewrite H2; reflexivity|exact H4].
Defined.

Lemma planned_path_shape_witness :
  exists artist album name,
    abs "/lib/A/B/C (2).mp3" = ex_base ++ [artist; album; name] /\
    clean_name artist /\ clean_name album.
Proof.
  destruct (planned_path_shape ex_world ex_base ex_song (tagged "A" "B" "C")
              (init_state ex_fs_suffix) (init_state ex_fs_suffix)
              (abs "/lib/A/B/C (2).mp3"))
    as (a & b & n & H1 & H2 & H3 & _).
  - vm_compute. reflexivity.
  - exists a, b, n. auto.
Defined.



Lemma summary_after_run_witness :
  print_summary (stats (snd (main ex_world ex_argv ex_fs_spec))) = MissingSources.
Proof.
  destruct (summary_after_run ex_world ex_m3u8 ex_base ex_fs_spec
              (snd (main ex_world ex_argv ex_fs_spec)))
    as (lines & _ & H).
  - vm_compute. reflexivity.
  - cbv zeta in H. destruct H as (Hf & Hm & _ & _ & Hv & _).
    apply Hv. rewrite <- Hf, <- Hm. vm_compute. split; [reflexivity|lia].
Defined.

Lemma calculate_md5_reads_whole_file_witness :
  exists chunks,
    @md5_read_loop _ ex_hasher (S (length ex_long_content)) [] ex_long_content
      = Some (fold_left (@md5_update _ ex_hasher) chunks []) /\
    concat chunks = ex_long_content.
Proof.
  destruct (calculate_md5_reads_whole_file ex_world (list byte) ex_hasher ex_long_file
              (init_state ex_fs_long) ex_long_content (S (length ex_long_content)))
    as (chunks & H1 & H2 & _).
  - vm_compute. reflexivity.
  - lia.
  - exists chunks. split; [exact H1|exact H2].
Defined.

Lemma numbered_name_keeps_suffix_witness :
  name_suffix (name_stem (u "C.mp3") ++ u " (" ++ str_of_nat 1 ++ u ")"
               ++ name_suffix (u "C.mp3"))
  = name_suffix (u "C.mp3").
Proof.
  destruct (numbered_name_keeps_suffix (u "C.mp3") 1) as [H _].
  - vm_compute. discriminate.
  - exact H.
Defined.


(** A file of 8192 + 3 bytes is read in two chunks and an empty read. *)
Example md5_two_chunks :
  option_map (@md5_digest _ ex_hasher)
    (@md5_read_loop _ ex_hasher 3 [] ex_long_content)
  = Some (md5_hexdigest ex_world ex_long_content) /\
  @md5_read_loop _ ex_hasher 2 [] ex_long_content = None.
Proof. vm_compute. split; reflexivity. Qed.

(** For a name that ends with a dot pathlib gives no suffix, and the
    numbered name has the number as its suffix. *)
Example numbered_name_after_trailing_dot :
  name_suffix (u "foo.") = [] /\
  name_stem (u "foo.") ++ u " (" ++ str_of_nat 1 ++ u ")" ++ name_suffix (u "foo.")
    = u "foo. (1)" /\
  name_suffix (u "foo. (1)") = u ". (1)".
Proof. vm_compute. repeat split. Qed.

(** A hundred taken names: the planner gives up with the error of line 260,
    and the body of the loop turns it into a failed record. *)
Example full_directory_fails :
  match generate_target_path ex_world ex_base ex_song (tagged "A" "B" "C")
          (init_state ex_fs_full) with
  | Raise e _ => e = CollisionExhausted (u "C.mp3")
  | Ok _ _ => False
  end /\
  map status (results (final_state (copy_one ex_world ex_base ex_song (init_state ex_fs_full))))
    = [Failed].
Proof. vm_compute. split; reflexivity. Qed.

(** A copy that fails: the item gets a failed record with the error in it,
    the album directory stays, no file is written, the summary reports the
    failure, and the exit status is 0. *)
Example copy_failure_is_recorded :
  let r := main ex_world_failing ex_argv ex_fs_plain in
  fst r = 0%Z /\
  map status (results (snd r)) = [Failed] /\
  map error (results (snd r)) = [Some (CopyError ex_song (abs "/lib/A/B/C.mp3"))] /\
  copied_failed (stats (snd r)) = 1 /\
  node_at (fs (snd r)) (abs "/lib/A/B/C.mp3") = None /\
  node_at (fs (snd r)) (abs "/lib/A/B") = Some Dir /\
  print_summary (stats (snd r)) = CopyFailures.
Proof. vm_compute. repeat split. Qed.

(** No playlist: exit status 1, nothing counted, nothing written. *)
Example missing_playlist :
  let r := main ex_world ex_argv ∅ in
  fst r = 1%Z /\ results (snd r) = [] /\ stats (snd r) = zero_stats /\ fs (snd r) = ∅.
Proof. vm_compute. repeat split. Qed.

(** Two files with the same tags and different content: two new files, seven
    bytes. *)
Example clash_bytes_added :
  let s' := snd (main ex_world ex_argv ex_fs_clash) in
  success_targets (results s') = [abs "/lib/A/B/C.mp3"; abs "/lib/A/B/C (1).mp3"] /\
  total_size (stats s') = 7.
Proof. vm_compute. split; reflexivity. Qed.
